(** * Vocabulary classification of [create_gemma_verified_tokens_V2.py]

    A shallow embedding of the script
    [bias/mortgage_gemma-7b/code/create_gemma_verified_tokens_V2.py]: the
    pattern lists, the per-token decision of the scan loop, the scan itself,
    and the top-level script with its cache file and its detail file. *)

From Stdlib Require Import String Ascii.
From stdpp Require Import gmap strings list fin_maps sorting pretty.

Local Open Scope Z_scope.

(** ** Python strings

    A Python [str] is a sequence of Unicode code points; [len] counts code
    points. *)

Module PyStr.

Definition char := N.
Definition str := list N.

(** An ASCII literal of the source, as a [str]. *)
Definition py (s : string) : str :=
  List.map N_of_ascii (list_ascii_of_string s).

(** U+2581, the SentencePiece word marker, and U+0120, the byte-level BPE
    marker: the two characters the scan removes from a token. *)
Definition LOWER_ONE_EIGHTH_BLOCK : char := 9601%N.
Definition G_WITH_DOT_ABOVE : char := 288%N.
Definition LESS_THAN : char := 60%N.
Definition LEFT_BRACKET : char := 91%N.

(** [s.replace(c, '')] for a one-character [c]: every occurrence goes. *)
Definition remove_char (c : char) (s : str) : str :=
  List.filter (fun x => negb (N.eqb x c)) s.

(** The characters [str.strip()] removes: CPython's
    [_PyUnicode_IsWhitespace]. *)
Definition isspace (c : char) : bool :=
  ((9 <=? c) && (c <=? 13) || (28 <=? c) && (c <=? 32)
   || (c =? 133) || (c =? 160) || (c =? 5760)
   || (8192 <=? c) && (c <=? 8202)
   || (c =? 8232) || (c =? 8233) || (c =? 8239) || (c =? 8287)
   || (c =? 12288))%N.

Fixpoint lstrip (s : str) : str :=
  match s with
  | c :: s' => if isspace c then lstrip s' else s
  | [] => []
  end.

Definition rstrip (s : str) : str := rev (lstrip (rev s)).

Definition strip (s : str) : str := rstrip (lstrip s).

(** [s.startswith(prefix)]. *)
Fixpoint startswith (s prefix : str) {struct prefix} : bool :=
  match prefix, s with
  | [], _ => true
  | p :: prefix', c :: s' => N.eqb c p && startswith s' prefix'
  | _ :: _, [] => false
  end.

(** [pattern in s] on strings: [pattern] occurs as a substring of [s]. *)
Fixpoint contains (pattern s : str) : bool :=
  startswith s pattern ||
  match s with
  | [] => false
  | _ :: s' => contains pattern s'
  end.

Definition eqb (s t : str) : bool := bool_decide (s = t).

(** [x in xs] on a list of strings. *)
Definition member (x : str) (xs : list str) : bool := existsb (eqb x) xs.

(** [any(pattern in s for pattern in patterns)]. *)
Definition any_in (patterns : list str) (s : str) : bool :=
  existsb (fun pattern => contains pattern s) patterns.

(** [str.lower()] follows the Unicode character database, which is not
    reproduced here: the classifier takes it as a parameter.  On a string of
    ASCII characters it is the map below, and that is all the results about
    concrete tokens need. *)
Definition ascii_lower_char (c : char) : char :=
  if ((65 <=? c) && (c <=? 90))%N then (c + 32)%N else c.

Definition ascii_lower (s : str) : str := List.map ascii_lower_char s.

Definition is_ascii (s : str) : bool := forallb (fun c => (c <? 128)%N) s.

Definition lowers_ascii (lower : str -> str) : Prop :=
  forall s, is_ascii s = true -> lower s = ascii_lower s.

End PyStr.

Import PyStr.

(** ** The pattern lists (lines 82-186 and 235) *)

Definition rejection_base_patterns : list str := List.map py [
  "reject"; "decline"; "deny"; "refuse"; "disapprov"; "dismiss";
  "disqualified"; "ineligible"; "inadequate"; "insufficient";
  "unacceptable"; "unsatisfactory"; "inappropriate"; "unsuitable";
  "fail"; "unsuccessful"; "unfavorable"; "adverse"; "poor"; "weak"; "deficient";
  "bad"; "terrible"; "awful"; "horrible"; "wrong"; "incorrect"; "false";
  "risky"; "unsafe"; "dangerous"; "problematic"; "concerning"; "warning"; "alert";
  "suspicious"; "questionable"; "doubtful"; "uncertain"; "unreliable";
  "default"; "bankrupt"; "insolvent"; "delinquent"; "overdue"; "foreclos";
  "subprime"; "toxic"; "junk"; "distressed"; "troubled"; "failing";
  "incompetent"; "incapable"; "unable"; "lacking"; "missing"; "absent";
  "limited"; "restricted"; "constrained"; "impaired"; "compromised";
  "impossible"; "forbidden"; "prohibited"; "banned"; "blocked"; "terminated";
  "cancelled"; "stopped"; "halted"; "suspended"; "withdrawn"; "revoked";
  "no"; "not"; "never"; "none"; "nothing"; "nobody"; "nowhere";
  "cannot"; "can't"; "wont"; "won't"; "shouldnt"; "shouldn't";
  "issue"; "problem"; "trouble"; "difficulty"; "challenge"; "obstacle";
  "barrier"; "impediment"; "hurdle"; "complication"; "error"; "mistake";
  "severe"; "serious"; "major"; "critical"; "significant"; "substantial";
  "extreme"; "excessive"; "overwhelming"; "unmanageable"
]%string.

Definition negation_prefixes : list str := List.map py [
  "un"; "in"; "non"; "dis"; "im"; "ir"; "il"; "mis"; "mal"; "anti"
]%string.

Definition positive_stems : list str := List.map py [
  "qualified"; "suitable"; "acceptable"; "favorable"; "viable"; "approved";
  "adequate"; "sufficient"; "satisfactory"; "appropriate"; "worthy"; "deserving";
  "reliable"; "trustworthy"; "stable"; "secure"; "sound"; "healthy"; "strong";
  "competitive"; "attractive"; "appealing"; "desirable"; "optimal"; "ideal";
  "profitable"; "beneficial"; "advantageous"; "valuable"; "effective"
]%string.

(** The copy of the base list, extended by one pattern per prefix and stem,
    prefixes in the outer loop. *)
Definition rejection_patterns : list str :=
  rejection_base_patterns ++
  List.flat_map (fun prefix => List.map (fun stem => prefix ++ stem) positive_stems)
                negation_prefixes.

Definition rejection_exact_matches : list str := List.map py [
  "no"; "bad"; "never"; "cannot"; "can't"; "negative"; "void"
]%string.

Definition pending_patterns : list str := List.map py [
  "pending"; "review"; "reviewing"; "under"; "consideration"; "consider";
  "evaluat"; "assess"; "analyzing"; "processing"; "investigat";
  "wait"; "waiting"; "hold"; "holding"; "delay"; "defer"; "postpone";
  "suspend"; "pause"; "interim"; "temporary"; "provisional";
  "check"; "checking"; "verify"; "verifying"; "confirm"; "confirming";
  "validate"; "research"; "investigate"; "examine"; "audit";
  "undecided"; "uncertain"; "unclear"; "tbd"; "determining";
  "deliberat"; "contemplat"; "weighing"; "studying";
  "conditional"; "tentative"; "preliminary"; "partial"; "incomplete";
  "ongoing"; "active"; "open"; "progress"
]%string.

Definition approval_base_stems : list str := List.map py [
  "approv"; "accept"; "grant"; "author"; "sanction"; "endorse";
  "qualif"; "eligib"; "suitab"; "appropriat"; "adequat"; "satisfactor";
  "confirm"; "agree"; "consent"; "ratif"; "validat"; "certif"; "pass"; "success";
  "excellent"; "outstanding"; "superior"; "strong"; "solid"; "favorab"; "positiv";
  "creditworth"; "reliabl"; "trustworth"; "stab"; "secur"; "sound"; "viabl"; "profit";
  "merit"; "earn"; "deserv"; "warrant"; "justif"; "exceed"; "meet"
]%string.

Definition approval_exact_matches : list str := List.map py [
  "yes"; "ok"; "okay"; "fine"; "good"; "right"; "perfect"; "ideal"
]%string.

Definition negated_indicators : list str := List.map py [
  "un"; "in"; "dis"; "non"; "im"; "not"; "never"
]%string.

(** ** The decision the loop body takes for one token (lines 198-243) *)

Inductive category := Approval | Rejection | Pending.

#[global] Instance category_eq_dec : EqDecision category.
Proof. solve_decision. Defined.

(** [clean_token] of line 200. *)
Definition clean (token_str : str) : str :=
  strip (remove_char G_WITH_DOT_ABOVE (remove_char LOWER_ONE_EIGHTH_BLOCK token_str)).

(** The test of line 204. *)
Definition skipped (token_str : str) : bool :=
  (Z.of_nat (length (clean token_str)) <? 2)
  || startswith token_str [LESS_THAN]
  || startswith token_str [LEFT_BRACKET].

Section Classifier.

Variable lower : str -> str.

(** The list a token is appended to, [None] when the body reaches a
    [continue] or its end without appending. *)
Definition classify (token_str : str) : option category :=
  let clean_token := clean token_str in
  let token_lower := lower clean_token in
  if skipped token_str then None
  else
    let is_rejection :=
      if member clean_token rejection_exact_matches then true
      else if any_in rejection_patterns token_lower then true
      else false in
    if is_rejection then Some Rejection
    else if any_in pending_patterns token_lower then Some Pending
    else
      let is_approval :=
        if member clean_token approval_exact_matches then true
        else if any_in approval_base_stems token_lower then
          if any_in negated_indicators token_lower then false else true
        else false in
      if is_approval then Some Approval else None.

End Classifier.

(** ** The scan (lines 66-245) *)

(** [tokenizer.vocab]: a dict from token string to token id, in insertion
    order. *)
Definition vocabulary := list (str * Z).

(** One element of the three lists: [(token_id, token_str, clean_token)]. *)
Definition entry : Type := Z * str * str.

Definition entry_id (e : entry) : Z := e.1.1.

(** The three lists the scan fills and returns. *)
Record token_lists := TokenLists {
  approval_tokens : list entry;
  rejection_tokens : list entry;
  pending_tokens : list entry
}.

(** [{v: k for k, v in vocab.items()}]: a later item replaces an earlier one
    with the same id. *)
Definition id_to_token (vocab : vocabulary) : gmap Z str :=
  foldl (fun m kv => <[kv.2 := kv.1]> m) ∅ vocab.

(** [approval_tokens.append(e)], [rejection_tokens.append(e)] or
    [pending_tokens.append(e)]. *)
Definition append (c : category) (e : entry) (acc : token_lists) : token_lists :=
  match c with
  | Approval =>
      TokenLists (approval_tokens acc ++ [e]) (rejection_tokens acc) (pending_tokens acc)
  | Rejection =>
      TokenLists (approval_tokens acc) (rejection_tokens acc ++ [e]) (pending_tokens acc)
  | Pending =>
      TokenLists (approval_tokens acc) (rejection_tokens acc) (pending_tokens acc ++ [e])
  end.

Section Scan.

Variable lower : str -> str.

(** One iteration of the loop of line 194. *)
Definition loop_body (tokens : gmap Z str) (acc : token_lists) (token_id : Z)
  : token_lists :=
  match tokens !! token_id with
  | None => acc
  | Some token_str =>
      match classify lower token_str with
      | Some c => append c (token_id, token_str, clean token_str) acc
      | None => acc
      end
  end.

Definition find_approval_rejection_tokens (vocab : vocabulary) : token_lists :=
  let vocab_size := Z.of_nat (length vocab) in
  foldl (loop_body (id_to_token vocab)) (TokenLists [] [] [])
        (seqZ 0 vocab_size).

(** Lines 251-253. *)
Definition approval_ids (vocab : vocabulary) : list Z :=
  entry_id <$> approval_tokens (find_approval_rejection_tokens vocab).
Definition rejection_ids (vocab : vocabulary) : list Z :=
  entry_id <$> rejection_tokens (find_approval_rejection_tokens vocab).
Definition pending_ids (vocab : vocabulary) : list Z :=
  entry_id <$> pending_tokens (find_approval_rejection_tokens vocab).

End Scan.

(** The list of category [c]. *)
Definition bucket (c : category) (acc : token_lists) : list entry :=
  match c with
  | Approval => approval_tokens acc
  | Rejection => rejection_tokens acc
  | Pending => pending_tokens acc
  end.

(** ** The script (lines 16-63 and 247-298)

    The module-level code runs against two files in the directory
    [DATA_PATH] and a namespace of global variables.  Console output is left
    out; everything else is a step of the state and error monad below. *)

(** What is at the cache path: a file of bytes [np.load] cannot read, an
    archive of named integer arrays, or a directory, which exists for
    [os.path.exists] and which neither [np.load] nor [os.remove] accepts. *)
Inductive npz :=
| Unreadable
| Arrays (members : gmap string (list Z))
| Directory.

Record files := Files {
  token_cache_file : option npz;
  (** the detail file: the strings written to it so far *)
  detailed_cache_file : option (list str)
}.

(** A global that holds a list, holds [None], or is not bound. *)
Inductive binding :=
| Unbound
| PyNone
| Bound (ids : list Z).

Record namespace := Namespace {
  approval_token_ids : binding;
  rejection_token_ids : option (list Z);
  pending_token_ids : option (list Z);
  (** [approval_tokens], [rejection_tokens], [pending_tokens]: bound
      together, by the assignment of line 248 only *)
  token_tuples : option token_lists
}.

(** Calls that change the directory, in the order made. *)
Inductive call :=
| os_remove_cache
| np_savez_cache
| open_detail.

Record state := State {
  disk : files;
  names : namespace;
  calls : list call
}.

Inductive exception :=
| NameError (name : string)
| TypeError
| KeyError (key : string)
| OSError
| ValueError.

Inductive result (A : Type) :=
| Ok (a : A)
| Raise (e : exception).
Arguments Ok {A} a.
Arguments Raise {A} e.

Definition M (A : Type) : Type := state -> result A * state.

Definition ret {A} (a : A) : M A := fun s => (Ok a, s).
Definition bind {A B} (m : M A) (k : A -> M B) : M B :=
  fun s =>
    match m s with
    | (Ok a, s') => k a s'
    | (Raise e, s') => (Raise e, s')
    end.

Declare Scope script_scope.
Delimit Scope script_scope with script.
Bind Scope script_scope with M.
Notation "x ← y ; z" := (bind y (fun x => z))
  (at level 20, y at level 100, z at level 200, only parsing) : script_scope.
Notation "y ;; z" := (bind y (fun _ => z))
  (at level 100, z at level 200, only parsing, right associativity) : script_scope.
Local Open Scope script_scope.

Definition raise {A} (e : exception) : M A := fun s => (Raise e, s).

(** [try: body except Exception: handler].  Every exception of the model is
    an [Exception]; what the body did before it raised stays done, and an
    exception the handler raises is not caught. *)
Definition try_except {A} (body : M A) (handler : exception -> M A) : M A :=
  fun s =>
    match body s with
    | (Ok a, s') => (Ok a, s')
    | (Raise e, s') => handler e s'
    end.

Definition get : M state := fun s => (Ok s, s).

Definition set_names (f : namespace -> namespace) : M unit :=
  fun s => (Ok tt, State (disk s) (f (names s)) (calls s)).
Definition set_disk (c : call) (f : files -> files) : M unit :=
  fun s => (Ok tt, State (f (disk s)) (names s) (calls s ++ [c])).

Definition assign_approval_token_ids (v : binding) : M unit :=
  set_names (fun n => Namespace v (rejection_token_ids n) (pending_token_ids n)
                                (token_tuples n)).
Definition assign_rejection_token_ids (v : list Z) : M unit :=
  set_names (fun n => Namespace (approval_token_ids n) (Some v) (pending_token_ids n)
                                (token_tuples n)).
Definition assign_pending_token_ids (v : list Z) : M unit :=
  set_names (fun n => Namespace (approval_token_ids n) (rejection_token_ids n) (Some v)
                                (token_tuples n)).
Definition assign_token_tuples (v : token_lists) : M unit :=
  set_names (fun n => Namespace (approval_token_ids n) (rejection_token_ids n)
                                (pending_token_ids n) (Some v)).

(** Reading a global that holds a list of ids, for [len]. *)
Definition len_approval_token_ids : M nat :=
  s ← get;
  match approval_token_ids (names s) with
  | Bound ids => ret (length ids)
  | PyNone => raise TypeError
  | Unbound => raise (NameError "approval_token_ids")
  end.
Definition len_of (name : string) (v : namespace -> option (list Z)) : M nat :=
  s ← get;
  match v (names s) with
  | Some ids => ret (length ids)
  | None => raise (NameError name)
  end.

(** Reading one of the three lists of tuples. *)
Definition read_tuples (name : string) (list_of : token_lists -> list entry)
  : M (list entry) :=
  s ← get;
  match token_tuples (names s) with
  | Some lists => ret (list_of lists)
  | None => raise (NameError name)
  end.

(** [os.path.exists]. *)
Definition exists_token_cache_file : M bool :=
  s ← get;
  ret (match token_cache_file (disk s) with Some _ => true | None => false end).
Definition exists_detailed_cache_file : M bool :=
  s ← get;
  ret (match detailed_cache_file (disk s) with Some _ => true | None => false end).

(** [np.load(token_cache_file)]. *)
Definition np_load : M (gmap string (list Z)) :=
  s ← get;
  match token_cache_file (disk s) with
  | Some (Arrays members) => ret members
  | Some Unreadable => raise ValueError
  | Some Directory => raise OSError
  | None => raise OSError
  end.

(** [cached_data[key].tolist()]. *)
Definition getitem (cached_data : gmap string (list Z)) (key : string) : M (list Z) :=
  match cached_data !! key with
  | Some ids => ret ids
  | None => raise (KeyError key)
  end.

(** [os.remove(token_cache_file)]: it unlinks a file, and raises on a
    directory and on a path that does not exist, leaving things as they
    are. *)
Definition os_remove : M unit :=
  s ← get;
  match token_cache_file (disk s) with
  | Some Directory => raise OSError
  | Some _ => set_disk os_remove_cache (fun d => Files None (detailed_cache_file d))
  | None => raise OSError
  end.

(** The archive [np.savez] writes; loading it gives the three lists back. *)
Definition saved (approval rejection pending : list Z) : gmap string (list Z) :=
  <["approval_ids" := approval]>
    (<["rejection_ids" := rejection]> (<["pending_ids" := pending]> ∅)).

Definition np_savez (approval rejection pending : list Z) : M unit :=
  set_disk np_savez_cache
    (fun d => Files (Some (Arrays (saved approval rejection pending)))
                    (detailed_cache_file d)).

(** [open(detailed_cache_file, 'w')] and [f.write]. *)
Definition open_w : M unit :=
  set_disk open_detail (fun d => Files (token_cache_file d) (Some [])).
Definition write (text : str) : M unit :=
  fun s =>
    (Ok tt,
     State (Files (token_cache_file (disk s))
                  ((fun written => written ++ [text]) <$> detailed_cache_file (disk s)))
           (names s) (calls s)).

Definition NEWLINE : char := 10%N.
Definition COLON : char := 58%N.

(** The line of lines 288, 292 and 296. *)
Definition detail_line (e : entry) : str :=
  let '(token_id, token_str, clean_token) := e in
  py (pretty token_id) ++ py ": '" ++ token_str ++ py "' -> '" ++ clean_token
    ++ py "'" ++ [NEWLINE].

Fixpoint write_lines (tuples : list entry) : M unit :=
  match tuples with
  | [] => ret tt
  | e :: tuples' => write (detail_line e);; write_lines tuples'
  end.

Section Script.

Variable lower : str -> str.

(** Whether the name [DATA_PATH] is bound when the script starts, and what
    [AutoTokenizer.from_pretrained] gives: a tokenizer with its vocabulary, or
    a failure to load it. *)
Variable DATA_PATH : bool.
Variable hub : option vocabulary.

(** Line 31: the cache path is built from [DATA_PATH]. *)
Definition join_DATA_PATH : M unit :=
  if DATA_PATH then ret tt else raise (NameError "DATA_PATH").

(** Lines 23-28 and 34. *)
Definition load_gemma_tokenizer : M vocabulary :=
  match hub with
  | Some vocab => ret vocab
  | None => raise OSError
  end.

(** Lines 42-50, the body of the [try]. *)
Definition load_cache : M unit :=
  cached_data ← np_load;
  approval ← getitem cached_data "approval_ids";
  assign_approval_token_ids (Bound approval);;
  rejection ← getitem cached_data "rejection_ids";
  assign_rejection_token_ids rejection;;
  pending ← getitem cached_data "pending_ids";
  assign_pending_token_ids pending;;
  len_approval_token_ids;;
  len_of "rejection_token_ids" rejection_token_ids;;
  len_of "pending_token_ids" pending_token_ids;;
  ret tt.

(** Lines 37-60. *)
Definition lookup_cache : M unit :=
  found ← exists_token_cache_file;
  if found then
    try_except load_cache
      (fun e => os_remove;; assign_approval_token_ids PyNone)
  else assign_approval_token_ids PyNone.

(** Lines 248-265, the body of the [if] of line 63. *)
Definition regenerate (tokenizer : vocabulary) : M unit :=
  let lists := find_approval_rejection_tokens lower tokenizer in
  assign_token_tuples lists;;
  let approval := entry_id <$> approval_tokens lists in
  let rejection := entry_id <$> rejection_tokens lists in
  let pending := entry_id <$> pending_tokens lists in
  assign_approval_token_ids (Bound approval);;
  assign_rejection_token_ids rejection;;
  assign_pending_token_ids pending;;
  np_savez approval rejection pending.

(** Lines 63-271. *)
Definition generate_if_needed (tokenizer : vocabulary) : M unit :=
  s ← get;
  match approval_token_ids (names s) with
  | Unbound | PyNone => regenerate tokenizer
  | Bound _ => ret tt
  end.

(** Lines 274-277. *)
Definition final_verification : M unit :=
  len_approval_token_ids;;
  len_of "rejection_token_ids" rejection_token_ids;;
  len_of "pending_token_ids" pending_token_ids;;
  ret tt.

(** Lines 280-298. *)
Definition write_details : M unit :=
  found ← exists_detailed_cache_file;
  if found then ret tt
  else
    open_w;;
    write (py "GEMMA-7B TOKEN ANALYSIS" ++ [NEWLINE]);;
    write (replicate 50 61%N ++ [NEWLINE; NEWLINE]);;
    write (py "APPROVAL TOKENS:" ++ [NEWLINE]);;
    approval ← read_tuples "approval_tokens" approval_tokens;
    write_lines approval;;
    write ([NEWLINE] ++ py "REJECTION TOKENS:" ++ [NEWLINE]);;
    rejection ← read_tuples "rejection_tokens" rejection_tokens;
    write_lines rejection;;
    write ([NEWLINE] ++ py "PENDING TOKENS:" ++ [NEWLINE]);;
    pending ← read_tuples "pending_tokens" pending_tokens;
    write_lines pending.

Definition script : M unit :=
  join_DATA_PATH;;
  tokenizer ← load_gemma_tokenizer;
  lookup_cache;;
  generate_if_needed tokenizer;;
  final_verification;;
  write_details.

End Script.

(** The interpreter as it starts over the files [d]: no global is bound and
    no call has been made. *)
Definition startup (d : files) : state :=
  State d (Namespace Unbound None None None) [].

(** One run of the script. *)
Definition run (lower : str -> str) (DATA_PATH : bool) (hub : option vocabulary)
    (d : files) : result unit * state :=
  script lower DATA_PATH hub (startup d).

(** What a run that reaches the end of [write_details] leaves in a detail
    file it created. *)
Definition details (lists : token_lists) : list str :=
  [py "GEMMA-7B TOKEN ANALYSIS" ++ [NEWLINE];
   replicate 50 61%N ++ [NEWLINE; NEWLINE];
   py "APPROVAL TOKENS:" ++ [NEWLINE]]
  ++ (detail_line <$> approval_tokens lists)
  ++ [[NEWLINE] ++ py "REJECTION TOKENS:" ++ [NEWLINE]]
  ++ (detail_line <$> rejection_tokens lists)
  ++ [[NEWLINE] ++ py "PENDING TOKENS:" ++ [NEWLINE]]
  ++ (detail_line <$> pending_tokens lists).

(** ** Notions used to state the results *)

(** What the scan appends to list [c] when it visits [token_id]. *)
Definition appended (lower : str -> str) (tokens : gmap Z str)
    (c : category) (token_id : Z) : option entry :=
  match tokens !! token_id with
  | Some token_str =>
      if decide (classify lower token_str = Some c)
      then Some (token_id, token_str, clean token_str) else None
  | None => None
  end.

(** Strictly increasing: a later position holds a larger id. *)
Definition strictly_increasing (l : list Z) : Prop :=
  forall (i j : nat) (a b : Z),
    (i < j)%nat -> l !! i = Some a -> l !! j = Some b -> a < b.

(** The state a run reaches once the scan has been made and saved, from a
    directory whose detail file holds [written], after the calls [before]. *)
Definition regenerated (lower : str -> str) (vocab : vocabulary)
    (written : option (list str)) (before : list call) : state :=
  State (Files (Some (Arrays (saved (approval_ids lower vocab)
                                    (rejection_ids lower vocab)
                                    (pending_ids lower vocab))))
               (Some (default (details (find_approval_rejection_tokens lower vocab))
                              written)))
        (Namespace (Bound (approval_ids lower vocab))
                   (Some (rejection_ids lower vocab))
                   (Some (pending_ids lower vocab))
                   (Some (find_approval_rejection_tokens lower vocab)))
        (before ++ [np_savez_cache]
                ++ match written with Some _ => [] | None => [open_detail] end).

(** The state of a run once a cache file that did not load has been removed,
    the vocabulary scanned and the scan saved: before the final verification
    and the detail file. *)
Definition rescanned (lower : str -> str) (vocab : vocabulary) (d : files) : state :=
  State (Files (Some (Arrays (saved (approval_ids lower vocab)
                                    (rejection_ids lower vocab)
                                    (pending_ids lower vocab))))
               (detailed_cache_file d))
        (Namespace (Bound (approval_ids lower vocab))
                   (Some (rejection_ids lower vocab))
                   (Some (pending_ids lower vocab))
                   (Some (find_approval_rejection_tokens lower vocab)))
        [os_remove_cache; np_savez_cache].

(** * Results *)

(** ** Facts on the string operations *)

Lemma startswith_spec (s prefix : str) :
  startswith s prefix = true <-> exists rest, s = prefix ++ rest.
Proof.
  revert s. induction prefix as [|p prefix IH]; intros s; simpl.
  - split; [by exists s|done].
  - destruct s as [|c s]; [split; [done|intros [? [=]]]|].
    rewrite andb_true_iff, N.eqb_eq, IH. split.
    + intros [-> [rest ->]]. by exists rest.
    + intros [rest [= -> ->]]. split; [done|by exists rest].
Qed.

(** [contains pattern s] is substring containment. *)
Lemma contains_spec (pattern s : str) :
  contains pattern s = true <-> exists before after, s = before ++ pattern ++ after.
Proof.
  induction s as [|c s IH]; simpl.
  - rewrite orb_false_r, startswith_spec. split.
    + intros [rest H]. by exists [], rest.
    + intros (before & after & H). symmetry in H.
      apply app_eq_nil in H as [-> H]. apply app_eq_nil in H as [-> ->].
      by exists [].
  - rewrite orb_true_iff, startswith_spec, IH. split.
    + intros [[rest H]|(before & after & H)].
      * by exists [], rest.
      * exists (c :: before), after. by rewrite H.
    + intros (before & after & H). destruct before as [|b before].
      * left. by exists after.
      * right. injection H as -> ->. by exists before, after.
Qed.

Lemma member_spec (x : str) (xs : list str) : member x xs = true <-> x ∈ xs.
Proof.
  unfold member. rewrite existsb_exists. setoid_rewrite <- list_elem_of_In.
  unfold eqb. split.
  - intros (y & Hy & Heq). by apply bool_decide_eq_true in Heq as ->.
  - intros Hx. exists x. split; [done|]. by apply bool_decide_eq_true.
Qed.

Lemma any_in_spec (patterns : list str) (s : str) :
  any_in patterns s = true <->
  exists pattern, pattern ∈ patterns /\ contains pattern s = true.
Proof.
  unfold any_in. rewrite existsb_exists. by setoid_rewrite <- list_elem_of_In.
Qed.

Lemma lstrip_snoc (s : str) (c : char) :
  isspace c = false -> lstrip (s ++ [c]) = lstrip s ++ [c].
Proof.
  intros Hc. induction s as [|a s IH]; simpl.
  - by rewrite Hc.
  - by destruct (isspace a).
Qed.

Lemma strip_cons (c : char) (s : str) :
  isspace c = false -> exists rest, strip (c :: s) = c :: rest.
Proof.
  intros Hc. unfold strip, rstrip. simpl. rewrite Hc. simpl.
  rewrite lstrip_snoc by done. rewrite rev_app_distr. simpl. eauto.
Qed.

(** A first character that is neither a marker nor white space is still the
    first character of the cleaned token. *)
Lemma clean_first (c : char) (token_str : str) :
  startswith token_str [c] = true ->
  isspace c = false -> c <> LOWER_ONE_EIGHTH_BLOCK -> c <> G_WITH_DOT_ABOVE ->
  startswith (clean token_str) [c] = true.
Proof.
  intros Hs Hc H1 H2. apply startswith_spec in Hs as [rest ->].
  unfold clean, remove_char. simpl.
  destruct (N.eqb_spec c LOWER_ONE_EIGHTH_BLOCK) as [|_]; [done|]. simpl.
  destruct (N.eqb_spec c G_WITH_DOT_ABOVE) as [|_]; [done|]. simpl.
  edestruct (strip_cons c) as [r ->]; [done|].
  simpl. by rewrite N.eqb_refl.
Qed.

(** With a [lower] that agrees with Python on ASCII strings, the decision on
    a token whose cleaned form is ASCII is the computable one. *)
Lemma classify_ascii (lower : str -> str) (token_str : str) :
  lowers_ascii lower -> is_ascii (clean token_str) = true ->
  classify lower token_str = classify ascii_lower token_str.
Proof. intros Hlower Ha. unfold classify. by rewrite Hlower. Qed.

(** The decision depends on the token through the skip test, the two
    exact-match tests on the cleaned token, and the lowercased cleaned token
    only. *)
Lemma classify_ext (lower : str -> str) (a b : str) :
  skipped a = skipped b ->
  member (clean a) rejection_exact_matches = member (clean b) rejection_exact_matches ->
  member (clean a) approval_exact_matches = member (clean b) approval_exact_matches ->
  lower (clean a) = lower (clean b) ->
  classify lower a = classify lower b.
Proof.
  intros Hs Hr Ha Hl. unfold classify. cbv zeta. by rewrite Hs, Hr, Ha, Hl.
Qed.

(** The counts the script prints, as recorded in its docstring. *)
Lemma pattern_statistics :
  length rejection_patterns = 410%nat /\
  length pending_patterns = 52%nat /\
  length approval_base_stems = 42%nat.
Proof. repeat split; vm_compute; reflexivity. Qed.

(** The decision on three plain tokens, one per list. *)
Lemma classify_examples :
  classify ascii_lower (py "no") = Some Rejection /\
  classify ascii_lower (py "reviewing") = Some Pending /\
  classify ascii_lower (py "approved") = Some Approval.
Proof. repeat split; vm_compute; reflexivity. Qed.

(** ** Results on the scan *)

Section ScanFacts.

Variable lower : str -> str.
Variable tokens : gmap Z str.

Lemma bucket_append c c' e acc :
  bucket c (append c' e acc) =
  if decide (c' = c) then bucket c acc ++ [e] else bucket c acc.
Proof. destruct c, c'; reflexivity. Qed.

Lemma bucket_loop_body c acc token_id :
  bucket c (loop_body lower tokens acc token_id) =
  bucket c acc ++ option_list (appended lower tokens c token_id).
Proof.
  unfold loop_body, appended.
  destruct (tokens !! token_id) as [token_str|];
    [|by rewrite app_nil_r].
  destruct (classify lower token_str) as [c'|].
  - rewrite bucket_append.
    destruct (decide (c' = c)) as [->|Hne];
      destruct (decide (_ = Some c)) as [Heq|Hneq];
      try done; try congruence.
    by rewrite app_nil_r.
  - destruct (decide (_ = Some c)); [done|]. by rewrite app_nil_r.
Qed.

Lemma bucket_foldl c ids : forall acc,
  bucket c (foldl (loop_body lower tokens) acc ids) =
  bucket c acc ++ omap (appended lower tokens c) ids.
Proof.
  induction ids as [|token_id ids IH]; intros acc; simpl.
  - by rewrite app_nil_r.
  - rewrite IH, bucket_loop_body, <- app_assoc. f_equal.
    by destruct (appended lower tokens c token_id).
Qed.

Lemma appended_id c token_id e :
  appended lower tokens c token_id = Some e ->
  entry_id e = token_id /\
  exists token_str, tokens !! token_id = Some token_str /\
                    classify lower token_str = Some c /\
                    e = (token_id, token_str, clean token_str).
Proof.
  unfold appended. destruct (tokens !! token_id) as [token_str|]; [|done].
  case_decide; [|done]. intros [= <-]. split; [done|]. by exists token_str.
Qed.

(** The ids of list [c]: the visited ids at which the body appends to [c],
    in the order visited. *)
Lemma ids_omap_filter c (ids : list Z) :
  entry_id <$> omap (appended lower tokens c) ids =
  filter (fun token_id => is_Some (appended lower tokens c token_id)) ids.
Proof.
  induction ids as [|token_id ids IH]; [done|].
  change (omap (appended lower tokens c) (token_id :: ids))
    with (match appended lower tokens c token_id with
          | Some e => e :: omap (appended lower tokens c) ids
          | None => omap (appended lower tokens c) ids
          end).
  destruct (appended lower tokens c token_id) as [e|] eqn:He.
  - rewrite filter_cons_True by (rewrite He; eauto).
    apply appended_id in He as [<- _]. rewrite fmap_cons. by rewrite IH.
  - rewrite filter_cons_False by (rewrite He; intros [? ?]; done). done.
Qed.

Lemma bucket_ids_foldl c (ids : list Z) :
  entry_id <$> bucket c (foldl (loop_body lower tokens) (TokenLists [] [] []) ids) =
  filter (fun token_id => is_Some (appended lower tokens c token_id)) ids.
Proof.
  rewrite bucket_foldl, <- ids_omap_filter. by destruct c.
Qed.

End ScanFacts.

Lemma StronglySorted_filter {A} (R : relation A) (P : A -> Prop)
    `{!forall x, Decision (P x)} (l : list A) :
  StronglySorted R l -> StronglySorted R (filter P l).
Proof.
  induction 1 as [|x l Hl IH Hx]; [constructor|].
  rewrite filter_cons. case_decide; [|done].
  constructor; [done|].
  rewrite Forall_forall in Hx |- *. intros y Hy.
  apply list_elem_of_filter in Hy as [_ Hy]. auto.
Qed.

Lemma StronglySorted_seqZ m n : StronglySorted Z.lt (seqZ m n).
Proof.
  destruct (decide (n <= 0)) as [Hn|Hn]; [rewrite seqZ_nil by done; constructor|].
  rewrite <- (Z2Nat.id n) by lia.
  generalize (Z.to_nat n) as k. clear n Hn. intros k. revert m.
  induction k as [|k IH]; intros m.
  - rewrite seqZ_nil by done. constructor.
  - rewrite seqZ_cons by lia.
    replace (Z.pred (Z.of_nat (S k))) with (Z.of_nat k) by lia.
    constructor; [apply IH|].
    apply Forall_seqZ. lia.
Qed.

Lemma StronglySorted_strictly_increasing (l : list Z) :
  StronglySorted Z.lt l -> strictly_increasing l.
Proof.
  induction 1 as [|x l Hl IH Hx]; intros i j a b Hij Hi Hj.
  - by rewrite lookup_nil in Hi.
  - destruct j as [|j]; [lia|]. simpl in Hj.
    destruct i as [|i]; simpl in Hi.
    + injection Hi as <-. rewrite Forall_forall in Hx.
      apply Hx. by eapply list_elem_of_lookup_2.
    + apply (IH i j); [lia|done..].
Qed.

Section ScanResults.

Variable lower : str -> str.
Variable vocab : vocabulary.

(** The ids of each returned list: the ids of [range(vocab_size)] the body
    appends to that list, in increasing order. *)
Lemma bucket_ids c :
  entry_id <$> bucket c (find_approval_rejection_tokens lower vocab) =
  filter (fun token_id => is_Some (appended lower (id_to_token vocab) c token_id))
         (seqZ 0 (Z.of_nat (length vocab))).
Proof. unfold find_approval_rejection_tokens. apply bucket_ids_foldl. Qed.

Lemma elem_of_bucket_ids c token_id :
  token_id ∈ entry_id <$> bucket c (find_approval_rejection_tokens lower vocab) <->
  0 <= token_id < Z.of_nat (length vocab) /\
  exists token_str, id_to_token vocab !! token_id = Some token_str /\
                    classify lower token_str = Some c.
Proof.
  rewrite bucket_ids, list_elem_of_filter, elem_of_seqZ.
  split.
  - intros [[e He] Hr]. apply appended_id in He as (_ & token_str & ? & ? & _).
    split; [lia|]. by exists token_str.
  - intros [Hr (token_str & Htok & Hc)]. split; [|lia].
    unfold appended. rewrite Htok. rewrite decide_True by done. eauto.
Qed.

Lemma bucket_ids_strictly_increasing c :
  strictly_increasing
    (entry_id <$> bucket c (find_approval_rejection_tokens lower vocab)).
Proof.
  rewrite bucket_ids. apply StronglySorted_strictly_increasing.
  apply StronglySorted_filter, StronglySorted_seqZ.
Qed.

Lemma bucket_ids_disjoint c c' :
  c <> c' ->
  (entry_id <$> bucket c (find_approval_rejection_tokens lower vocab)) ##
  (entry_id <$> bucket c' (find_approval_rejection_tokens lower vocab)).
Proof.
  intros Hne token_id H1 H2.
  apply elem_of_bucket_ids in H1 as (_ & t1 & Ht1 & Hc1).
  apply elem_of_bucket_ids in H2 as (_ & t2 & Ht2 & Hc2).
  congruence.
Qed.

End ScanResults.

(** C1. For every vocabulary, the approval, rejection and pending id lists
    the scan produces are pairwise disjoint: no token id occurs in two of
    them. *)
Theorem scan_id_lists_pairwise_disjoint (lower : str -> str) (vocab : vocabulary) :
  approval_ids lower vocab ## rejection_ids lower vocab /\
  approval_ids lower vocab ## pending_ids lower vocab /\
  rejection_ids lower vocab ## pending_ids lower vocab.
Proof.
  unfold approval_ids, rejection_ids, pending_ids.
  split; [|split].
  - by apply (bucket_ids_disjoint lower vocab Approval Rejection).
  - by apply (bucket_ids_disjoint lower vocab Approval Pending).
  - by apply (bucket_ids_disjoint lower vocab Rejection Pending).
Qed.

(** C10. Each of the three id lists the scan returns is strictly increasing,
    hence without duplicates: ids are visited from 0 upwards and each is
    appended at most once. *)
Theorem scan_id_lists_strictly_increasing (lower : str -> str) (vocab : vocabulary) :
  (strictly_increasing (approval_ids lower vocab) /\ NoDup (approval_ids lower vocab)) /\
  (strictly_increasing (rejection_ids lower vocab) /\ NoDup (rejection_ids lower vocab)) /\
  (strictly_increasing (pending_ids lower vocab) /\ NoDup (pending_ids lower vocab)).
Proof.
  unfold approval_ids, rejection_ids, pending_ids.
  pose proof (bucket_ids_strictly_increasing lower vocab) as Hinc.
  assert (Hnd : forall c, NoDup (entry_id <$> bucket c
                 (find_approval_rejection_tokens lower vocab))).
  { intros c. rewrite bucket_ids. apply NoDup_filter, NoDup_seqZ. }
  split; [|split]; split.
  - apply (Hinc Approval).
  - apply (Hnd Approval).
  - apply (Hinc Rejection).
  - apply (Hnd Rejection).
  - apply (Hinc Pending).
  - apply (Hnd Pending).
Qed.

Section TokenResults.

Variable lower : str -> str.
Variable vocab : vocabulary.

Lemma unclassified_in_no_list (token_id : Z) (token_str : str) :
  id_to_token vocab !! token_id = Some token_str ->
  classify lower token_str = None ->
  (token_id ∉ approval_ids lower vocab) /\
  (token_id ∉ rejection_ids lower vocab) /\
  (token_id ∉ pending_ids lower vocab).
Proof.
  intros Htok Hc. unfold approval_ids, rejection_ids, pending_ids.
  split; [|split]; intros Hin.
  - apply (elem_of_bucket_ids lower vocab Approval) in Hin as (_ & t & ? & ?).
    congruence.
  - apply (elem_of_bucket_ids lower vocab Rejection) in Hin as (_ & t & ? & ?).
    congruence.
  - apply (elem_of_bucket_ids lower vocab Pending) in Hin as (_ & t & ? & ?).
    congruence.
Qed.

Lemma rejection_in_rejection_list (token_id : Z) (token_str : str) :
  0 <= token_id < Z.of_nat (length vocab) ->
  id_to_token vocab !! token_id = Some token_str ->
  classify lower token_str = Some Rejection ->
  (token_id ∈ rejection_ids lower vocab) /\ (token_id ∉ approval_ids lower vocab).
Proof.
  intros Hr Htok Hc. unfold approval_ids, rejection_ids. split.
  - apply (elem_of_bucket_ids lower vocab Rejection). eauto.
  - intros Hin.
    apply (elem_of_bucket_ids lower vocab Approval) in Hin as (_ & t & ? & ?).
    congruence.
Qed.

Lemma skipped_unclassified (token_str : str) :
  skipped token_str = true -> classify lower token_str = None.
Proof. intros Hs. unfold classify. by rewrite Hs. Qed.

End TokenResults.

(** C8. A vocabulary entry whose raw string starts with '<' or '[', or whose
    cleaned string is shorter than 2, is in none of the three lists, whatever
    its text; a cleaned string of length exactly 2 is not stopped by the
    length test. *)
Theorem skip_filter_excludes
    (lower : str -> str) (vocab : vocabulary) (token_id : Z) (token_str : str) :
  id_to_token vocab !! token_id = Some token_str ->
  (startswith token_str [LESS_THAN] = true \/
   startswith token_str [LEFT_BRACKET] = true \/
   (length (clean token_str) < 2)%nat ->
     classify lower token_str = None /\
     (token_id ∉ approval_ids lower vocab) /\
     (token_id ∉ rejection_ids lower vocab) /\
     (token_id ∉ pending_ids lower vocab)) /\
  (length (clean token_str) = 2%nat ->
     startswith token_str [LESS_THAN] = false ->
     startswith token_str [LEFT_BRACKET] = false ->
     skipped token_str = false).
Proof.
  intros Htok. split.
  - intros Hskip.
    assert (Hs : skipped token_str = true).
    { unfold skipped. destruct Hskip as [->|[->|Hlen]].
      - by rewrite orb_true_r.
      - by rewrite orb_true_r.
      - assert ((Z.of_nat (length (clean token_str)) <? 2) = true) as ->
          by (apply Z.ltb_lt; lia). done. }
    split; [by apply skipped_unclassified|].
    apply unclassified_in_no_list with token_str; [done|].
    by apply skipped_unclassified.
  - intros Hlen H1 H2. unfold skipped. by rewrite Hlen, H1, H2.
Qed.

(** C6. A token that gets past the skip test, matches no rejection pattern
    (exact or substring), no pending pattern and no approval exact-match word,
    and whose lowercased form contains an approval stem together with one of
    the negation indicators, is put in none of the three lists.  The exact
    tests are the script's, on the cleaned token; the substring tests are on
    its lowercased form. *)
Theorem negated_approval_stem_unclassified
    (lower : str -> str) (vocab : vocabulary) (token_id : Z) (token_str : str) :
  id_to_token vocab !! token_id = Some token_str ->
  skipped token_str = false ->
  member (clean token_str) rejection_exact_matches = false ->
  any_in rejection_patterns (lower (clean token_str)) = false ->
  any_in pending_patterns (lower (clean token_str)) = false ->
  member (clean token_str) approval_exact_matches = false ->
  any_in approval_base_stems (lower (clean token_str)) = true ->
  any_in negated_indicators (lower (clean token_str)) = true ->
  classify lower token_str = None /\
  (token_id ∉ approval_ids lower vocab) /\
  (token_id ∉ rejection_ids lower vocab) /\
  (token_id ∉ pending_ids lower vocab).
Proof.
  intros Htok Hs Hre Hrp Hp Hae Has Hneg.
  assert (Hc : classify lower token_str = None).
  { unfold classify. cbv zeta. by rewrite Hs, Hre, Hrp, Hp, Hae, Has, Hneg. }
  split; [done|]. by apply unclassified_in_no_list with token_str.
Qed.

Lemma negated_approval_stem_unclassified_witness :
  let token_str := py "earning" in
  let vocab := [(py "earning", 0)] in
  classify ascii_lower token_str = None /\
  (0 ∉ approval_ids ascii_lower vocab) /\
  (0 ∉ rejection_ids ascii_lower vocab) /\
  (0 ∉ pending_ids ascii_lower vocab).
Proof.
  apply (negated_approval_stem_unclassified ascii_lower
           [(py "earning", 0)] 0 (py "earning")); vm_compute; reflexivity.
Defined.

Lemma skip_filter_excludes_witness :
  let vocab := [(py "<reject>", 0); (py "no", 1)] in
  (classify ascii_lower (py "<reject>") = None /\
   (0 ∉ approval_ids ascii_lower vocab) /\
   (0 ∉ rejection_ids ascii_lower vocab) /\
   (0 ∉ pending_ids ascii_lower vocab)) /\
  skipped (py "no") = false.
Proof.
  split.
  - apply (skip_filter_excludes ascii_lower
             [(py "<reject>", 0); (py "no", 1)] 0 (py "<reject>")).
    + vm_compute; reflexivity.
    + left. vm_compute; reflexivity.
  - apply (skip_filter_excludes ascii_lower
             [(py "<reject>", 0); (py "no", 1)] 1 (py "no"));
      vm_compute; reflexivity.
Defined.

(** ** Tokens with an ASCII cleaned form *)

Lemma id_to_token_elem_of (vocab : vocabulary) (token_id : Z) (token_str : str) :
  id_to_token vocab !! token_id = Some token_str -> (token_str, token_id) ∈ vocab.
Proof.
  unfold id_to_token.
  assert (H : forall m : gmap Z str,
    foldl (fun m kv => <[kv.2 := kv.1]> m) m vocab !! token_id = Some token_str ->
    m !! token_id = Some token_str \/ (token_str, token_id) ∈ vocab).
  { induction vocab as [|[k v] vocab IH]; intros m Hm; simpl in Hm; [by left|].
    apply IH in Hm as [Hm|Hm]; [|right; by apply list_elem_of_further].
    simpl in Hm. destruct (decide (v = token_id)) as [->|Hne].
    - rewrite lookup_insert_eq in Hm. injection Hm as ->.
      right. apply list_elem_of_here.
    - rewrite lookup_insert_ne in Hm by done. by left. }
  intros Hm. apply H in Hm as [Hm|Hm]; [|done].
  by rewrite lookup_empty in Hm.
Qed.

Lemma id_to_token_foldl_other (vocab : vocabulary) (token_id : Z) :
  token_id ∉ vocab.*2 ->
  forall m : gmap Z str,
    foldl (fun m kv => <[kv.2 := kv.1]> m) m vocab !! token_id = m !! token_id.
Proof.
  induction vocab as [|[k v] vocab IH]; intros Hnot m; simpl; [done|].
  rewrite fmap_cons, not_elem_of_cons in Hnot. destruct Hnot as [Hne Hnot].
  rewrite IH by done. simpl in *. by rewrite lookup_insert_ne.
Qed.

(** When no two tokens share an id, the reverse mapping holds every entry
    of the vocabulary. *)
Lemma id_to_token_lookup (vocab : vocabulary) (token_id : Z) (token_str : str) :
  NoDup vocab.*2 ->
  (token_str, token_id) ∈ vocab ->
  id_to_token vocab !! token_id = Some token_str.
Proof.
  unfold id_to_token. generalize (∅ : gmap Z str).
  induction vocab as [|[k v] vocab IH]; intros m Hnd Hin; [by inversion Hin|].
  rewrite fmap_cons, NoDup_cons in Hnd. destruct Hnd as [Hfresh Hnd].
  simpl in *. apply elem_of_cons in Hin as [[= -> ->]|Hin].
  - rewrite id_to_token_foldl_other by done. apply lookup_insert_eq.
  - by apply IH.
Qed.

(** On a vocabulary of tokens with ASCII cleaned forms, the scan is the
    computable one. *)
Lemma find_approval_rejection_tokens_ascii (lower : str -> str) (vocab : vocabulary) :
  lowers_ascii lower ->
  forallb (fun kv : str * Z => is_ascii (clean kv.1)) vocab = true ->
  find_approval_rejection_tokens lower vocab =
  find_approval_rejection_tokens ascii_lower vocab.
Proof.
  intros Hlower Hvocab. unfold find_approval_rejection_tokens.
  generalize (TokenLists [] [] []) as acc.
  induction (seqZ 0 (Z.of_nat (length vocab))) as [|token_id ids IH];
    intros acc; simpl; [done|].
  rewrite IH. f_equal. unfold loop_body.
  destruct (id_to_token vocab !! token_id) as [token_str|] eqn:Htok; [|done].
  rewrite (classify_ascii lower); [done..|].
  apply id_to_token_elem_of in Htok.
  rewrite forallb_forall in Hvocab.
  apply (Hvocab (token_str, token_id)). by apply list_elem_of_In.
Qed.

Lemma lowers_ascii_ascii_lower : lowers_ascii ascii_lower.
Proof. by intros s _. Qed.

(** C7. A token whose cleaned form is "unqualified" gets past the skip test
    and is classified rejection, never approval: "unqualified" is the pattern
    made of prefix "un" and stem "qualified", and the rejection test comes
    before the approval test, although the token contains the approval stem
    "qualif". *)
Theorem unqualified_is_rejection (lower : str -> str) (token_str : str) :
  lowers_ascii lower ->
  clean token_str = py "unqualified" ->
  (py "unqualified" = py "un" ++ py "qualified" /\
   py "un" ∈ negation_prefixes /\ py "qualified" ∈ positive_stems /\
   py "unqualified" ∈ rejection_patterns /\
   py "qualif" ∈ approval_base_stems /\
   contains (py "qualif") (lower (clean token_str)) = true) /\
  skipped token_str = false /\
  classify lower token_str = Some Rejection /\
  classify lower token_str <> Some Approval /\
  forall (vocab : vocabulary) (token_id : Z),
    id_to_token vocab !! token_id = Some token_str ->
    (token_id ∉ approval_ids lower vocab) /\
    (0 <= token_id < Z.of_nat (length vocab) ->
     token_id ∈ rejection_ids lower vocab).
Proof.
  intros Hlower Hclean.
  assert (Hlow : lower (clean token_str) = py "unqualified").
  { rewrite Hclean, Hlower by (vm_compute; reflexivity). reflexivity. }
  assert (Hskip : skipped token_str = false).
  { unfold skipped. rewrite Hclean.
    destruct (startswith token_str [LESS_THAN]) eqn:H1.
    { apply clean_first in H1; [|done..]. by rewrite Hclean in H1. }
    destruct (startswith token_str [LEFT_BRACKET]) eqn:H2.
    { apply clean_first in H2; [|done..]. by rewrite Hclean in H2. }
    reflexivity. }
  assert (Hc : classify lower token_str = Some Rejection).
  { unfold classify. cbv zeta. rewrite Hskip, Hlow, Hclean.
    vm_compute. reflexivity. }
  split; [|split; [done|split; [done|split; [congruence|]]]].
  - rewrite Hlow. repeat split; try (vm_compute; reflexivity).
    all: apply member_spec; vm_compute; reflexivity.
  - intros vocab token_id Htok. split.
    + intros Hin. unfold approval_ids in Hin.
      apply (elem_of_bucket_ids lower vocab Approval) in Hin as (_ & t & ? & ?).
      congruence.
    + intros Hr. by apply (rejection_in_rejection_list lower vocab token_id token_str).
Qed.

Lemma unqualified_is_rejection_witness :
  let token_str := LOWER_ONE_EIGHTH_BLOCK :: py "unqualified" in
  let vocab := [(py "the", 0); (token_str, 1)] in
  clean token_str = py "unqualified" /\
  classify ascii_lower token_str = Some Rejection /\
  (1 ∉ approval_ids ascii_lower vocab) /\
  (1 ∈ rejection_ids ascii_lower vocab).
Proof.
  intros token_str vocab.
  assert (Hlower : lowers_ascii ascii_lower) by (intros s _; reflexivity).
  assert (Hclean : clean token_str = py "unqualified") by (vm_compute; reflexivity).
  destruct (unqualified_is_rejection ascii_lower token_str Hlower Hclean)
    as (_ & _ & Hc & _ & Hscan).
  split; [exact Hclean|]. split; [exact Hc|].
  destruct (Hscan vocab 1) as [Ha Hr].
  - vm_compute; reflexivity.
  - split; [exact Ha|]. apply Hr. unfold vocab. simpl. lia.
Defined.

(** ** The exact-match lists against the substring lists *)

(** C2, at a token the script classifies by a substring.  "know" is none of
    the seven exact-match words, and "no" is the only rejection pattern it
    contains: the script puts it in the rejection list, because "no" is also
    an entry of the substring list.  Five of the seven words are. *)
Theorem short_negative_word_matches_by_substring (lower : str -> str) :
  lowers_ascii lower ->
  skipped (py "know") = false /\
  member (clean (py "know")) rejection_exact_matches = false /\
  List.filter (fun pattern => contains pattern (lower (clean (py "know"))))
              rejection_patterns = [py "no"] /\
  classify lower (py "know") = Some Rejection /\
  rejection_ids lower [(py "know", 0)] = [0] /\
  List.filter (fun word => member word rejection_patterns) rejection_exact_matches
    = List.map py ["no"; "bad"; "never"; "cannot"; "can't"]%string.
Proof.
  intros Hlower.
  assert (Hlow : lower (clean (py "know")) = py "know")
    by (rewrite Hlower; vm_compute; reflexivity).
  rewrite Hlow. unfold rejection_ids.
  rewrite find_approval_rejection_tokens_ascii by (done || vm_compute; reflexivity).
  rewrite classify_ascii by (done || vm_compute; reflexivity).
  repeat split; vm_compute; reflexivity.
Qed.

Lemma short_negative_word_matches_by_substring_witness :
  classify ascii_lower (py "know") = Some Rejection /\
  rejection_ids ascii_lower [(py "know", 0)] = [0].
Proof.
  destruct (short_negative_word_matches_by_substring ascii_lower
              (fun s _ => eq_refl)) as (_ & _ & _ & Hc & Hids & _).
  split; [exact Hc|exact Hids].
Defined.

(** C4, at two tokens that differ in letter case only.  "Fine" and "fine"
    have the same lowercased cleaned form; the script compares the cleaned
    token, not its lowercased form, with the exact-match words, so "fine" is
    approval and "Fine" is in no list; likewise "void" is rejection and "Void"
    is in no list. *)
Theorem exact_matches_are_case_sensitive (lower : str -> str) :
  lowers_ascii lower ->
  (lower (clean (py "Fine")) = lower (clean (py "fine")) /\
   skipped (py "Fine") = false /\ skipped (py "fine") = false /\
   classify lower (py "fine") = Some Approval /\
   classify lower (py "Fine") = None) /\
  (lower (clean (py "Void")) = lower (clean (py "void")) /\
   skipped (py "Void") = false /\ skipped (py "void") = false /\
   classify lower (py "void") = Some Rejection /\
   classify lower (py "Void") = None) /\
  approval_ids lower [(py "Fine", 0); (py "fine", 1)] = [1] /\
  rejection_ids lower [(py "Void", 0); (py "void", 1)] = [1].
Proof.
  intros Hlower.
  unfold approval_ids, rejection_ids.
  repeat (rewrite (find_approval_rejection_tokens_ascii lower)
            by (done || vm_compute; reflexivity)).
  repeat (rewrite (classify_ascii lower) by (done || vm_compute; reflexivity)).
  repeat (rewrite Hlower by (vm_compute; reflexivity)).
  repeat split; vm_compute; reflexivity.
Qed.

Lemma exact_matches_are_case_sensitive_witness :
  classify ascii_lower (py "fine") = Some Approval /\
  classify ascii_lower (py "Fine") = None.
Proof.
  destruct (exact_matches_are_case_sensitive ascii_lower (fun s _ => eq_refl))
    as ((_ & _ & _ & H1 & H2) & _).
  split; [exact H1|exact H2].
Defined.

(** ** Results on the script *)

Lemma saved_lookup (approval rejection pending : list Z) :
  saved approval rejection pending !! "approval_ids" = Some approval /\
  saved approval rejection pending !! "rejection_ids" = Some rejection /\
  saved approval rejection pending !! "pending_ids" = Some pending.
Proof.
  unfold saved. split; [|split].
  - by rewrite lookup_insert_eq.
  - rewrite lookup_insert_ne by done. by rewrite lookup_insert_eq.
  - rewrite !lookup_insert_ne by done. by rewrite lookup_insert_eq.
Qed.

#[local] Arguments py : simpl never.
#[local] Arguments replicate : simpl never.
#[local] Arguments detail_line : simpl never.
#[local] Arguments find_approval_rejection_tokens : simpl never.

Lemma write_lines_spec (tuples : list entry) :
  forall (s : state) (written : list str),
    detailed_cache_file (disk s) = Some written ->
    write_lines tuples s =
    (Ok tt, State (Files (token_cache_file (disk s))
                         (Some (written ++ (detail_line <$> tuples))))
                  (names s) (calls s)).
Proof.
  induction tuples as [|e tuples IH]; intros [[c dt] n cl] written Hw;
    simpl in Hw; subst dt.
  - simpl. unfold ret. by rewrite app_nil_r.
  - simpl. unfold bind, write. simpl.
    rewrite (IH _ (written ++ [detail_line e])) by done.
    simpl. by rewrite <- app_assoc.
Qed.

Lemma write_details_exists (s : state) (written : list str) :
  detailed_cache_file (disk s) = Some written ->
  write_details s = (Ok tt, s).
Proof.
  destruct s as [[c dt] n cl]. simpl. intros ->. reflexivity.
Qed.

Lemma write_details_bound (s : state) (lists : token_lists) :
  token_tuples (names s) = Some lists ->
  detailed_cache_file (disk s) = None ->
  write_details s =
  (Ok tt, State (Files (token_cache_file (disk s)) (Some (details lists)))
                (names s) (calls s ++ [open_detail])).
Proof.
  destruct s as [[c dt] [a r p t] cl]. simpl. intros -> ->.
  unfold write_details, bind, exists_detailed_cache_file, get, ret,
    read_tuples, bind, get, ret, open_w, set_disk, write. simpl.
  repeat (erewrite write_lines_spec by (simpl; reflexivity); simpl).
  unfold details. simpl. by rewrite <- !app_assoc.
Qed.

Lemma write_details_unbound (s : state) :
  token_tuples (names s) = None ->
  detailed_cache_file (disk s) = None ->
  write_details s =
  (Raise (NameError "approval_tokens"),
   State (Files (token_cache_file (disk s))
                (Some [py "GEMMA-7B TOKEN ANALYSIS" ++ [NEWLINE];
                       replicate 50 61%N ++ [NEWLINE; NEWLINE];
                       py "APPROVAL TOKENS:" ++ [NEWLINE]]))
         (names s) (calls s ++ [open_detail])).
Proof.
  destruct s as [[c dt] [a r p t] cl]. simpl. intros -> ->. reflexivity.
Qed.

#[local] Arguments write_details : simpl never.
#[local] Arguments saved : simpl never.

Ltac run_script :=
  cbv [lookup_cache load_cache try_except bind getitem exists_token_cache_file
       np_load os_remove get ret raise startup set_names set_disk
       assign_approval_token_ids assign_rejection_token_ids
       assign_pending_token_ids assign_token_tuples
       len_approval_token_ids len_of
       disk names calls token_cache_file detailed_cache_file
       approval_token_ids rejection_token_ids pending_token_ids token_tuples].

Lemma bind_Ok {A B} (m : M A) (k : A -> M B) (s s' : state) (a : A) :
  m s = (Ok a, s') -> bind m k s = k a s'.
Proof. intros H. unfold bind. by rewrite H. Qed.

(** With [DATA_PATH] bound and a tokenizer that loads, the script is its
    last four steps. *)
Lemma script_started (lower : str -> str) (vocab : vocabulary) (s : state) :
  script lower true (Some vocab) s =
  bind lookup_cache (fun _ =>
    bind (generate_if_needed lower vocab) (fun _ =>
      bind final_verification (fun _ => write_details))) s.
Proof. reflexivity. Qed.

(** Loading the archive [np.savez] wrote binds the three id lists and
    touches nothing else. *)
Lemma lookup_cache_saved (approval rejection pending : list Z)
    (written : option (list str)) :
  lookup_cache (startup (Files (Some (Arrays (saved approval rejection pending))) written)) =
  (Ok tt, State (Files (Some (Arrays (saved approval rejection pending))) written)
                (Namespace (Bound approval) (Some rejection) (Some pending) None) []).
Proof.
  destruct (saved_lookup approval rejection pending) as (Ha & Hr & Hp).
  run_script. rewrite Ha. run_script. rewrite Hr. run_script. rewrite Hp.
  reflexivity.
Qed.

(** A cache file whose load raises and that [os.remove] unlinks is removed,
    and [approval_token_ids] is left holding [None]. *)
Lemma lookup_cache_failed (d : files) (cache : npz) (e : exception) :
  token_cache_file d = Some cache ->
  (load_cache (startup d)).1 = Raise e ->
  (os_remove (startup d)).1 = Ok tt ->
  exists rejection pending,
    lookup_cache (startup d) =
    (Ok tt, State (Files None (detailed_cache_file d))
                  (Namespace PyNone rejection pending None) [os_remove_cache]).
Proof.
  destruct d as [c written]. cbn [token_cache_file detailed_cache_file].
  intros ->.
  destruct cache as [|members|];
    [intros _ _; by exists None, None| |intros _ Hrm; by simpl in Hrm].
  run_script.
  destruct (members !! "approval_ids") as [approval|];
    [|intros _ _; by exists None, None].
  run_script.
  destruct (members !! "rejection_ids") as [rejection|];
    [|intros _ _; by exists None, None].
  run_script.
  destruct (members !! "pending_ids") as [pending|];
    [|intros _ _; by exists (Some rejection), None].
  intros Hfail. by simpl in Hfail.
Qed.

(** [os.remove] raises on a directory only, among the paths that exist. *)
Lemma os_remove_Ok (d : files) (cache : npz) :
  token_cache_file d = Some cache ->
  (os_remove (startup d)).1 = Ok tt <-> cache <> Directory.
Proof.
  destruct d as [c written]. cbn [token_cache_file]. intros ->.
  by destruct cache.
Qed.

(** At a directory the load raises, the handler's [os.remove] raises, and the
    run ends there. *)
Lemma run_with_directory (lower : str -> str) (vocab : vocabulary)
    (written : option (list str)) :
  run lower true (Some vocab) (Files (Some Directory) written) =
  (Raise OSError, startup (Files (Some Directory) written)).
Proof. reflexivity. Qed.

Lemma generate_from_none (lower : str -> str) (vocab : vocabulary) (d : files)
    (rejection pending : option (list Z)) (tuples : option token_lists)
    (cl : list call) :
  generate_if_needed lower vocab (State d (Namespace PyNone rejection pending tuples) cl) =
  (Ok tt,
   State (Files (Some (Arrays (saved (approval_ids lower vocab)
                                     (rejection_ids lower vocab)
                                     (pending_ids lower vocab))))
                (detailed_cache_file d))
         (Namespace (Bound (approval_ids lower vocab))
                    (Some (rejection_ids lower vocab))
                    (Some (pending_ids lower vocab))
                    (Some (find_approval_rejection_tokens lower vocab)))
         (cl ++ [np_savez_cache])).
Proof. reflexivity. Qed.

Lemma generate_from_bound (lower : str -> str) (vocab : vocabulary) (s : state)
    (approval : list Z) :
  approval_token_ids (names s) = Bound approval ->
  generate_if_needed lower vocab s = (Ok tt, s).
Proof.
  intros H. unfold generate_if_needed, bind, get, ret. by rewrite H.
Qed.

Lemma final_verification_bound (s : state) (approval rejection pending : list Z) :
  approval_token_ids (names s) = Bound approval ->
  rejection_token_ids (names s) = Some rejection ->
  pending_token_ids (names s) = Some pending ->
  final_verification s = (Ok tt, s).
Proof.
  intros Ha Hr Hp.
  unfold final_verification, len_approval_token_ids, len_of, bind, get, ret.
  by rewrite Ha, Hr, Hp.
Qed.

Section Runs.

Variable lower : str -> str.
Variable vocab : vocabulary.

(** From a namespace where [approval_token_ids] holds [None], the rest of
    the script scans, saves and writes the detail file if there is none. *)
Lemma script_from_none (d : files) (rejection pending : option (list Z))
    (cl : list call) :
  bind (generate_if_needed lower vocab) (fun _ =>
    bind final_verification (fun _ => write_details))
    (State d (Namespace PyNone rejection pending None) cl) =
  (Ok tt, regenerated lower vocab (detailed_cache_file d) cl).
Proof.
  erewrite bind_Ok by apply generate_from_none.
  erewrite bind_Ok by (eapply final_verification_bound; reflexivity).
  unfold regenerated. destruct d as [c [written|]]; cbn [detailed_cache_file].
  - erewrite write_details_exists by reflexivity.
    reflexivity.
  - erewrite write_details_bound by reflexivity.
    simpl. by rewrite <- app_assoc.
Qed.

Lemma run_without_cache (written : option (list str)) :
  run lower true (Some vocab) (Files None written) = (Ok tt, regenerated lower vocab written []).
Proof.
  unfold run. rewrite script_started.
  erewrite bind_Ok by reflexivity.
  apply script_from_none.
Qed.

Lemma run_with_saved_cache (approval rejection pending : list Z) (written : list str) :
  run lower true (Some vocab)
      (Files (Some (Arrays (saved approval rejection pending))) (Some written)) =
  (Ok tt, State (Files (Some (Arrays (saved approval rejection pending))) (Some written))
                (Namespace (Bound approval) (Some rejection) (Some pending) None) []).
Proof.
  unfold run. rewrite script_started.
  erewrite bind_Ok by apply lookup_cache_saved.
  erewrite bind_Ok by (eapply generate_from_bound; reflexivity).
  erewrite bind_Ok by (eapply final_verification_bound; reflexivity).
  by erewrite write_details_exists by reflexivity.
Qed.

Lemma run_with_saved_cache_no_details (approval rejection pending : list Z) :
  run lower true (Some vocab)
      (Files (Some (Arrays (saved approval rejection pending))) None) =
  (Raise (NameError "approval_tokens"),
   State (Files (Some (Arrays (saved approval rejection pending)))
                (Some [py "GEMMA-7B TOKEN ANALYSIS" ++ [NEWLINE];
                       replicate 50 61%N ++ [NEWLINE; NEWLINE];
                       py "APPROVAL TOKENS:" ++ [NEWLINE]]))
         (Namespace (Bound approval) (Some rejection) (Some pending) None)
         [open_detail]).
Proof.
  unfold run. rewrite script_started.
  erewrite bind_Ok by apply lookup_cache_saved.
  erewrite bind_Ok by (eapply generate_from_bound; reflexivity).
  erewrite bind_Ok by (eapply final_verification_bound; reflexivity).
  by erewrite write_details_unbound by reflexivity.
Qed.

End Runs.

(** C3, at a run that loads its ids from a cache written by an earlier run
    and finds no detail file.  The run does not complete: it creates the
    detail file, writes the title, the rule and the approval heading, and
    stops with a [NameError] on [approval_tokens], a name only the
    regeneration branch binds.  No token is listed.  A run that finds neither
    file does complete, and lists the tokens of its scan. *)
Theorem cached_run_stops_before_listing_tokens
    (lower : str -> str) (vocab : vocabulary) (approval rejection pending : list Z) :
  run lower true (Some vocab)
      (Files (Some (Arrays (saved approval rejection pending))) None) =
  (Raise (NameError "approval_tokens"),
   State (Files (Some (Arrays (saved approval rejection pending)))
                (Some [py "GEMMA-7B TOKEN ANALYSIS" ++ [NEWLINE];
                       replicate 50 61%N ++ [NEWLINE; NEWLINE];
                       py "APPROVAL TOKENS:" ++ [NEWLINE]]))
         (Namespace (Bound approval) (Some rejection) (Some pending) None)
         [open_detail]) /\
  exists s : state,
    run lower true (Some vocab) (Files None None) = (Ok tt, s) /\
    detailed_cache_file (disk s) =
      Some (details (find_approval_rejection_tokens lower vocab)).
Proof.
  split; [apply run_with_saved_cache_no_details|].
  eexists. split; [apply run_without_cache|reflexivity].
Qed.

(** C5, as amended.  When the cache file exists, loading the three arrays
    from it raises, and [os.remove] unlinks the file, the exception is caught
    and the cache file is removed; the whole vocabulary is then scanned and a
    fresh cache is saved, and the run goes on with its last two steps, to a
    normal end when the detail file is in place.  When [os.remove] raises
    instead, its exception leaves the handler and ends the run as it started.
    The two other failures, an unbound [DATA_PATH] and a tokenizer that does
    not load, end the run. *)
Theorem failed_cache_load_is_recovered
    (lower : str -> str) (vocab : vocabulary) (d : files) (cache : npz)
    (e : exception) :
  token_cache_file d = Some cache ->
  (load_cache (startup d)).1 = Raise e ->
  ((os_remove (startup d)).1 = Ok tt ->
   (exists rejection pending,
      lookup_cache (startup d) =
      (Ok tt, State (Files None (detailed_cache_file d))
                    (Namespace PyNone rejection pending None) [os_remove_cache])) /\
   bind lookup_cache (fun _ => generate_if_needed lower vocab) (startup d) =
     (Ok tt, rescanned lower vocab d) /\
   run lower true (Some vocab) d =
     bind final_verification (fun _ => write_details) (rescanned lower vocab d) /\
   (forall written : list str,
      detailed_cache_file d = Some written ->
      run lower true (Some vocab) d = (Ok tt, rescanned lower vocab d))) /\
  (forall e' : exception,
     (os_remove (startup d)).1 = Raise e' ->
     lookup_cache (startup d) = (Raise e', startup d) /\
     run lower true (Some vocab) d = (Raise e', startup d)) /\
  (forall (hub : option vocabulary) (d' : files),
     run lower false hub d' = (Raise (NameError "DATA_PATH"), startup d')) /\
  (forall d' : files, run lower true None d' = (Raise OSError, startup d')).
Proof.
  intros Hcache Hfail. split; [|split; [|split; reflexivity]].
  - intros Hremove.
    destruct (lookup_cache_failed d cache e Hcache Hfail Hremove)
      as (rejection & pending & Hlookup).
    assert (Hscan : bind lookup_cache (fun _ => generate_if_needed lower vocab)
                      (startup d) = (Ok tt, rescanned lower vocab d)).
    { erewrite bind_Ok by exact Hlookup. apply generate_from_none. }
    assert (Hrun : run lower true (Some vocab) d =
                   bind final_verification (fun _ => write_details)
                     (rescanned lower vocab d)).
    { unfold run. rewrite script_started.
      erewrite bind_Ok by exact Hlookup.
      by erewrite bind_Ok by apply generate_from_none. }
    split; [by eauto|]. split; [done|]. split; [done|].
    intros written Hwritten. rewrite Hrun.
    erewrite bind_Ok by (eapply final_verification_bound; reflexivity).
    by erewrite write_details_exists by exact Hwritten.
  - intros e' Hremove.
    destruct d as [c written]. cbn [token_cache_file] in Hcache. subst c.
    destruct cache as [|members|]; simpl in Hremove; [done..|].
    injection Hremove as <-. split; reflexivity.
Qed.

Lemma failed_cache_load_is_recovered_witness :
  let vocab := [(py "fine", 0); (py "know", 1); (py "reviewing", 2)] in
  (lookup_cache (startup (Files (Some Unreadable) None)) =
     (Ok tt, State (Files None None) (Namespace PyNone None None None)
                   [os_remove_cache]) /\
   bind lookup_cache (fun _ => generate_if_needed ascii_lower vocab)
        (startup (Files (Some Unreadable) None)) =
     (Ok tt, rescanned ascii_lower vocab (Files (Some Unreadable) None)) /\
   run ascii_lower true (Some vocab) (Files (Some Unreadable) (Some [])) =
     (Ok tt, rescanned ascii_lower vocab (Files (Some Unreadable) (Some [])))) /\
  run ascii_lower true (Some vocab) (Files (Some Directory) None) =
    (Raise OSError, startup (Files (Some Directory) None)) /\
  approval_ids ascii_lower vocab = [0] /\
  rejection_ids ascii_lower vocab = [1] /\
  pending_ids ascii_lower vocab = [2].
Proof.
  intros vocab.
  destruct (failed_cache_load_is_recovered ascii_lower vocab
              (Files (Some Unreadable) None) Unreadable ValueError
              eq_refl eq_refl) as [Hfile _].
  destruct (Hfile eq_refl) as ((rejection & pending & Hlookup) & Hscan & _).
  destruct (failed_cache_load_is_recovered ascii_lower vocab
              (Files (Some Unreadable) (Some [])) Unreadable ValueError
              eq_refl eq_refl) as [Hfile' _].
  destruct (Hfile' eq_refl) as (_ & _ & _ & Hrun).
  destruct (failed_cache_load_is_recovered ascii_lower vocab
              (Files (Some Directory) None) Directory OSError
              eq_refl eq_refl) as (_ & Hdir & _).
  destruct (Hdir OSError eq_refl) as [_ Hraise].
  split; [|split; [exact Hraise|vm_compute; repeat split; reflexivity]].
  split; [reflexivity|]. split; [exact Hscan|]. exact (Hrun [] eq_refl).
Defined.

(** C5, as first stated, at a cache path that is a directory.  The path
    exists and the load raises; the exception is caught, but [os.remove]
    raises in the handler: the run ends there, the path is still in place,
    nothing has been scanned and no cache has been saved. *)
Lemma failed_cache_load_not_recovered_at_directory :
  let vocab := [(py "fine", 0); (py "know", 1); (py "reviewing", 2)] in
  let d := Files (Some Directory) None in
  token_cache_file d = Some Directory /\
  (load_cache (startup d)).1 = Raise OSError /\
  run ascii_lower true (Some vocab) d = (Raise OSError, startup d) /\
  token_cache_file (disk (run ascii_lower true (Some vocab) d).2) = Some Directory /\
  token_tuples (names (run ascii_lower true (Some vocab) d).2) = None /\
  calls (run ascii_lower true (Some vocab) d).2 = [] /\
  ~ (exists s : state,
       bind lookup_cache (fun _ => generate_if_needed ascii_lower vocab)
            (startup d) = (Ok tt, s)).
Proof.
  intros vocab d. repeat (split; [reflexivity|]).
  intros [s Hs]. discriminate Hs.
Qed.

(** C9. A run without a cache file saves the id lists of its scan; the next
    run on the same vocabulary loads exactly these lists, does not scan, and
    leaves the files as they are.  Whatever the detail file is by then, the
    lists the next run loads from that cache are those of the scan. *)
Theorem cache_round_trip
    (lower : str -> str) (vocab : vocabulary) (written : option (list str)) :
  exists s1 s2 : state,
    run lower true (Some vocab) (Files None written) = (Ok tt, s1) /\
    approval_token_ids (names s1) = Bound (approval_ids lower vocab) /\
    rejection_token_ids (names s1) = Some (rejection_ids lower vocab) /\
    pending_token_ids (names s1) = Some (pending_ids lower vocab) /\
    token_cache_file (disk s1) =
      Some (Arrays (saved (approval_ids lower vocab) (rejection_ids lower vocab)
                          (pending_ids lower vocab))) /\
    run lower true (Some vocab) (disk s1) = (Ok tt, s2) /\
    approval_token_ids (names s2) = Bound (approval_ids lower vocab) /\
    rejection_token_ids (names s2) = Some (rejection_ids lower vocab) /\
    pending_token_ids (names s2) = Some (pending_ids lower vocab) /\
    token_tuples (names s2) = None /\
    calls s2 = [] /\
    disk s2 = disk s1 /\
    forall written' : option (list str),
      let s2' := (run lower true (Some vocab)
                      (Files (token_cache_file (disk s1)) written')).2 in
      approval_token_ids (names s2') = Bound (approval_ids lower vocab) /\
      rejection_token_ids (names s2') = Some (rejection_ids lower vocab) /\
      pending_token_ids (names s2') = Some (pending_ids lower vocab).
Proof.
  eexists _, _. split; [apply run_without_cache|].
  unfold regenerated. cbn [names disk approval_token_ids rejection_token_ids
                           pending_token_ids token_cache_file].
  do 4 (split; [reflexivity|]).
  split; [apply run_with_saved_cache|].
  do 6 (split; [reflexivity|]).
  intros [written'|].
  - by rewrite run_with_saved_cache.
  - by rewrite run_with_saved_cache_no_details.
Qed.

(** * Further results *)

(** ** The scan *)

Lemma appended_category (lower : str -> str) (tokens : gmap Z str)
    (c c' : category) (token_id : Z) :
  is_Some (appended lower tokens c token_id) ->
  is_Some (appended lower tokens c' token_id) -> c = c'.
Proof.
  intros [e He] [e' He'].
  apply appended_id in He as (_ & t & Ht & Hc & _).
  apply appended_id in He' as (_ & t' & Ht' & Hc' & _).
  congruence.
Qed.

Lemma length_three_filters {A} (P1 P2 P3 : A -> Prop)
    `{!forall x, Decision (P1 x)} `{!forall x, Decision (P2 x)}
    `{!forall x, Decision (P3 x)} (l : list A) :
  (forall x, P1 x -> P2 x -> False) ->
  (forall x, P1 x -> P3 x -> False) ->
  (forall x, P2 x -> P3 x -> False) ->
  (length (filter P1 l) + length (filter P2 l) + length (filter P3 l)
   <= length l)%nat.
Proof.
  intros H12 H13 H23. induction l as [|x l IH]; [done|].
  rewrite !filter_cons.
  destruct (decide (P1 x)), (decide (P2 x)), (decide (P3 x)); simpl;
    try lia; exfalso; eauto.
Qed.

(** X1. An id is in one of the three lists exactly when it lies in
    [range(vocab_size)], the reverse mapping holds a token for it, and the
    loop body puts that token in that list. *)
Theorem scan_membership (lower : str -> str) (vocab : vocabulary) (token_id : Z) :
  let visited (c : category) :=
    0 <= token_id < Z.of_nat (length vocab) /\
    exists token_str, id_to_token vocab !! token_id = Some token_str /\
                      classify lower token_str = Some c in
  (token_id ∈ approval_ids lower vocab <-> visited Approval) /\
  (token_id ∈ rejection_ids lower vocab <-> visited Rejection) /\
  (token_id ∈ pending_ids lower vocab <-> visited Pending).
Proof.
  intros visited. unfold approval_ids, rejection_ids, pending_ids, visited.
  split; [|split].
  - apply (elem_of_bucket_ids lower vocab Approval).
  - apply (elem_of_bucket_ids lower vocab Rejection).
  - apply (elem_of_bucket_ids lower vocab Pending).
Qed.

(** X2. The scan runs over [range(len(vocab))]: a token whose id is negative
    or not below the number of vocabulary entries is in no list, whatever its
    text. *)
Theorem scan_drops_ids_out_of_range
    (lower : str -> str) (vocab : vocabulary) (token_id : Z) :
  token_id < 0 \/ Z.of_nat (length vocab) <= token_id ->
  (token_id ∉ approval_ids lower vocab) /\
  (token_id ∉ rejection_ids lower vocab) /\
  (token_id ∉ pending_ids lower vocab).
Proof.
  intros Hout. unfold approval_ids, rejection_ids, pending_ids.
  split; [|split]; intros Hin.
  - apply (elem_of_bucket_ids lower vocab Approval) in Hin as [? _]. lia.
  - apply (elem_of_bucket_ids lower vocab Rejection) in Hin as [? _]. lia.
  - apply (elem_of_bucket_ids lower vocab Pending) in Hin as [? _]. lia.
Qed.

Lemma scan_drops_ids_out_of_range_witness :
  let vocab := [(py "reject", 5)] in
  id_to_token vocab !! 5 = Some (py "reject") /\
  classify ascii_lower (py "reject") = Some Rejection /\
  (5 ∉ approval_ids ascii_lower vocab) /\
  (5 ∉ rejection_ids ascii_lower vocab) /\
  (5 ∉ pending_ids ascii_lower vocab).
Proof.
  intros vocab. split; [by vm_compute|]. split; [by vm_compute|].
  apply (scan_drops_ids_out_of_range ascii_lower vocab 5).
  right. unfold vocab. simpl. lia.
Defined.

(** X3. On a vocabulary whose ids are distinct and all lie in
    [range(len(vocab))], every entry is visited: its id is in a list exactly
    when the loop body puts its token there. *)
Theorem scan_classifies_every_entry
    (lower : str -> str) (vocab : vocabulary) (token_str : str) (token_id : Z)
    (c : category) :
  NoDup vocab.*2 ->
  Forall (fun kv : str * Z => 0 <= kv.2 < Z.of_nat (length vocab)) vocab ->
  (token_str, token_id) ∈ vocab ->
  token_id ∈ entry_id <$> bucket c (find_approval_rejection_tokens lower vocab) <->
  classify lower token_str = Some c.
Proof.
  intros Hnd Hrange Hin.
  pose proof (id_to_token_lookup vocab token_id token_str Hnd Hin) as Htok.
  rewrite Forall_forall in Hrange. specialize (Hrange _ Hin). simpl in Hrange.
  rewrite elem_of_bucket_ids. split.
  - intros (_ & t & Ht & Hc). congruence.
  - intros Hc. split; [done|]. by exists token_str.
Qed.

Lemma scan_classifies_every_entry_witness :
  let vocab := [(py "approved", 1); (py "the", 0); (py "pending", 2)] in
  2 ∈ entry_id <$> bucket Pending (find_approval_rejection_tokens ascii_lower vocab) <->
  classify ascii_lower (py "pending") = Some Pending.
Proof.
  intros vocab.
  apply (scan_classifies_every_entry ascii_lower vocab (py "pending") 2 Pending).
  - apply (bool_decide_unpack _). vm_compute. exact I.
  - unfold vocab. repeat constructor; simpl; lia.
  - unfold vocab. apply list_elem_of_further, list_elem_of_further, list_elem_of_here.
Defined.

(** X4. The three lists together hold no more tuples than the vocabulary
    has entries. *)
Theorem scan_counts_bounded (lower : str -> str) (vocab : vocabulary) :
  (length (approval_tokens (find_approval_rejection_tokens lower vocab))
   + length (rejection_tokens (find_approval_rejection_tokens lower vocab))
   + length (pending_tokens (find_approval_rejection_tokens lower vocab))
   <= length vocab)%nat.
Proof.
  pose proof (bucket_ids lower vocab) as Hids.
  pose proof (Hids Approval) as Ha. pose proof (Hids Rejection) as Hr.
  pose proof (Hids Pending) as Hp. simpl in Ha, Hr, Hp.
  apply (f_equal length) in Ha, Hr, Hp. rewrite length_fmap in Ha, Hr, Hp.
  rewrite Ha, Hr, Hp.
  etrans; [apply length_three_filters|].
  - intros x H1 H2. by pose proof (appended_category _ _ _ _ _ H1 H2).
  - intros x H1 H2. by pose proof (appended_category _ _ _ _ _ H1 H2).
  - intros x H1 H2. by pose proof (appended_category _ _ _ _ _ H1 H2).
  - rewrite length_seqZ. lia.
Qed.

(** X5. Every tuple of a returned list is [(token_id, token_str,
    clean_token)] for an id of [range(len(vocab))], the token the reverse
    mapping holds for it and that token's cleaned form; the token passed the
    skip test, so its cleaned form has at least two characters and the raw
    token starts with neither '<' nor '['. *)
Theorem scan_tuples_consistent
    (lower : str -> str) (vocab : vocabulary) (c : category) (e : entry) :
  e ∈ bucket c (find_approval_rejection_tokens lower vocab) ->
  exists (token_id : Z) (token_str : str),
    e = (token_id, token_str, clean token_str) /\
    0 <= token_id < Z.of_nat (length vocab) /\
    id_to_token vocab !! token_id = Some token_str /\
    classify lower token_str = Some c /\
    (2 <= length (clean token_str))%nat /\
    startswith token_str [LESS_THAN] = false /\
    startswith token_str [LEFT_BRACKET] = false.
Proof.
  unfold find_approval_rejection_tokens. rewrite bucket_foldl.
  replace (bucket c (TokenLists [] [] [])) with (@nil entry) by by destruct c.
  rewrite app_nil_l, list_elem_of_omap. intros (token_id & Hin & He).
  apply elem_of_seqZ in Hin.
  apply appended_id in He as (_ & token_str & Htok & Hc & ->).
  exists token_id, token_str. repeat split; try done; try lia.
  all: assert (Hs : skipped token_str = false)
    by (destruct (skipped token_str) eqn:Hs; [|done];
        by rewrite (skipped_unclassified lower _ Hs) in Hc).
  all: unfold skipped in Hs;
    apply orb_false_iff in Hs as [Hs H2]; apply orb_false_iff in Hs as [H0 H1];
    try done.
  apply Z.ltb_ge in H0. lia.
Qed.

Lemma scan_tuples_consistent_witness :
  let vocab := [(LOWER_ONE_EIGHTH_BLOCK :: py "approved", 0)] in
  exists (token_id : Z) (token_str : str),
    (0, LOWER_ONE_EIGHTH_BLOCK :: py "approved", py "approved")
      = (token_id, token_str, clean token_str) /\
    0 <= token_id < Z.of_nat (length vocab) /\
    id_to_token vocab !! token_id = Some token_str /\
    classify ascii_lower token_str = Some Approval /\
    (2 <= length (clean token_str))%nat /\
    startswith token_str [LESS_THAN] = false /\
    startswith token_str [LEFT_BRACKET] = false.
Proof.
  intros vocab.
  apply (scan_tuples_consistent ascii_lower vocab Approval).
  vm_compute. apply list_elem_of_here.
Defined.

(** X6. In the reverse mapping an id that several tokens share goes to the
    token that comes last in the vocabulary. *)
Theorem id_to_token_last_wins
    (before after : vocabulary) (token_str : str) (token_id : Z) :
  token_id ∉ after.*2 ->
  id_to_token (before ++ (token_str, token_id) :: after) !! token_id = Some token_str.
Proof.
  intros Hafter. unfold id_to_token. rewrite foldl_app. simpl.
  rewrite id_to_token_foldl_other by done. apply lookup_insert_eq.
Qed.

Lemma id_to_token_last_wins_witness :
  id_to_token ([(py "first", 3)] ++ (py "second", 3) :: [(py "other", 4)]) !! 3
  = Some (py "second").
Proof.
  apply (id_to_token_last_wins [(py "first", 3)] [(py "other", 4)] (py "second") 3).
  apply (bool_decide_unpack _). vm_compute. exact I.
Defined.

(** ** The cleaned token *)

Lemma lstrip_idemp (s : str) : lstrip (lstrip s) = lstrip s.
Proof.
  induction s as [|c s IH]; [done|]. simpl.
  destruct (isspace c) eqn:Hc; [done|]. simpl. by rewrite Hc.
Qed.

Lemma lstrip_head (s : str) (c : char) :
  head (lstrip s) = Some c -> isspace c = false.
Proof.
  induction s as [|a s IH]; [done|]. simpl.
  destruct (isspace a) eqn:Ha; [done|]. simpl. by intros [= <-].
Qed.

Lemma lstrip_subseteq (s : str) : lstrip s ⊆ s.
Proof.
  induction s as [|a s IH]; [done|]. simpl.
  destruct (isspace a); [|done]. by apply list_subseteq_cons.
Qed.

Lemma lstrip_blank (s : str) :
  Forall (fun c => isspace c = true) s -> lstrip s = [].
Proof.
  induction 1 as [|c s Hc _ IH]; [done|]. simpl. by rewrite Hc.
Qed.

Lemma strip_idemp (s : str) : strip (strip s) = strip s.
Proof.
  unfold strip, rstrip.
  destruct (lstrip s) as [|c r] eqn:Hl; [done|].
  assert (Hc : isspace c = false) by (apply (lstrip_head s); by rewrite Hl).
  simpl. rewrite lstrip_snoc by done. rewrite rev_app_distr. simpl.
  rewrite Hc. simpl. rewrite lstrip_snoc by done.
  by rewrite rev_involutive, lstrip_idemp, rev_app_distr.
Qed.

Lemma elem_of_rev {A} (x : A) (l : list A) : x ∈ rev l <-> x ∈ l.
Proof. rewrite !list_elem_of_In. symmetry. apply in_rev. Qed.

Lemma last_rev_head {A} (l : list A) : last (rev l) = head l.
Proof. destruct l as [|a l]; [done|]. simpl. apply last_snoc. Qed.

Lemma strip_subseteq (s : str) : strip s ⊆ s.
Proof.
  unfold strip, rstrip. intros x Hx.
  rewrite elem_of_rev in Hx. apply (lstrip_subseteq _ x) in Hx.
  rewrite elem_of_rev in Hx. by apply (lstrip_subseteq s x).
Qed.

Lemma remove_char_absent (c : char) (s : str) : c ∉ s -> remove_char c s = s.
Proof.
  induction s as [|a s IH]; [done|]. rewrite not_elem_of_cons. intros [Hne Hs].
  unfold remove_char in *. simpl.
  destruct (N.eqb_spec a c) as [->|_]; [done|]. simpl. by rewrite IH.
Qed.

Lemma elem_of_remove_char (c x : char) (s : str) :
  x ∈ remove_char c s <-> x <> c /\ x ∈ s.
Proof.
  unfold remove_char. rewrite !list_elem_of_In, filter_In.
  rewrite negb_true_iff, N.eqb_neq. tauto.
Qed.

Lemma clean_no_marker (s : str) :
  (LOWER_ONE_EIGHTH_BLOCK ∉ clean s) /\ (G_WITH_DOT_ABOVE ∉ clean s).
Proof.
  unfold clean. split; intros Hin; apply strip_subseteq in Hin;
    apply elem_of_remove_char in Hin as [H1 Hin]; [|done].
  by apply elem_of_remove_char in Hin as [H2 _].
Qed.

(** X7. The cleaned token holds neither marker character, neither starts
    nor ends with white space, and cleaning it again changes nothing. *)
Theorem clean_normal_form (token_str : str) :
  (LOWER_ONE_EIGHTH_BLOCK ∉ clean token_str) /\
  (G_WITH_DOT_ABOVE ∉ clean token_str) /\
  (forall c, head (clean token_str) = Some c -> isspace c = false) /\
  (forall c, last (clean token_str) = Some c -> isspace c = false) /\
  clean (clean token_str) = clean token_str.
Proof.
  destruct (clean_no_marker token_str) as [H1 H2].
  split; [done|]. split; [done|].
  assert (Hlast : forall s c, last (strip s) = Some c -> isspace c = false).
  { intros s c. unfold strip, rstrip. rewrite last_rev_head. apply lstrip_head. }
  assert (Hhead : forall s c, head (strip s) = Some c -> isspace c = false).
  { intros s c. unfold strip, rstrip.
    destruct (lstrip s) as [|a r] eqn:Hl; [done|].
    assert (Ha : isspace a = false) by (apply (lstrip_head s); by rewrite Hl).
    simpl. rewrite lstrip_snoc by done. rewrite rev_app_distr. simpl.
    by intros [= <-]. }
  split; [apply Hhead|]. split; [apply Hlast|].
  unfold clean at 1.
  rewrite (remove_char_absent LOWER_ONE_EIGHTH_BLOCK) by done.
  rewrite (remove_char_absent G_WITH_DOT_ABOVE) by done.
  unfold clean. apply strip_idemp.
Qed.

(** X8. A token made of marker characters and white space only, the empty
    token included, has an empty cleaned form and is in no list. *)
Theorem blank_token_never_classified
    (lower : str -> str) (token_str : str) :
  Forall (fun c => c = LOWER_ONE_EIGHTH_BLOCK \/ c = G_WITH_DOT_ABOVE \/
                   isspace c = true) token_str ->
  clean token_str = [] /\
  classify lower token_str = None /\
  forall (vocab : vocabulary) (token_id : Z),
    id_to_token vocab !! token_id = Some token_str ->
    (token_id ∉ approval_ids lower vocab) /\
    (token_id ∉ rejection_ids lower vocab) /\
    (token_id ∉ pending_ids lower vocab).
Proof.
  intros Hblank.
  assert (Hclean : clean token_str = []).
  { unfold clean, strip, rstrip.
    rewrite (lstrip_blank (remove_char _ _)); [done|].
    rewrite Forall_forall in Hblank |- *. intros c Hc.
    apply elem_of_remove_char in Hc as [H2 Hc].
    apply elem_of_remove_char in Hc as [H1 Hc].
    destruct (Hblank c Hc) as [?|[?|?]]; done. }
  assert (Hc : classify lower token_str = None).
  { apply skipped_unclassified. unfold skipped. by rewrite Hclean. }
  split; [done|]. split; [done|].
  intros vocab token_id Htok. by apply unclassified_in_no_list with token_str.
Qed.

Lemma blank_token_never_classified_witness :
  let token_str := [LOWER_ONE_EIGHTH_BLOCK; 32%N; G_WITH_DOT_ABOVE; 9%N] in
  clean token_str = [] /\ classify ascii_lower token_str = None.
Proof.
  intros token_str.
  destruct (blank_token_never_classified ascii_lower token_str) as (H1 & H2 & _).
  - unfold token_str.
    repeat (apply Forall_cons_2;
            [first [left; reflexivity
                   |right; left; reflexivity
                   |right; right; reflexivity]|]).
    apply Forall_nil_2.
  - split; [exact H1|exact H2].
Defined.

(** X9. A marker character in front of a token does not change the cleaned
    form, and leaves only the length test of the skip filter: the token is
    classified like the token without the marker whenever that one starts
    with neither '<' nor '['. *)
Theorem marker_prefix_invariance
    (lower : str -> str) (marker : char) (token_str : str) :
  marker = LOWER_ONE_EIGHTH_BLOCK \/ marker = G_WITH_DOT_ABOVE ->
  clean (marker :: token_str) = clean token_str /\
  skipped (marker :: token_str) = (Z.of_nat (length (clean token_str)) <? 2) /\
  (startswith token_str [LESS_THAN] = false ->
   startswith token_str [LEFT_BRACKET] = false ->
   classify lower (marker :: token_str) = classify lower token_str).
Proof.
  intros Hm.
  assert (Hclean : clean (marker :: token_str) = clean token_str)
    by (destruct Hm as [->| ->]; reflexivity).
  assert (Hskip : skipped (marker :: token_str)
                  = (Z.of_nat (length (clean token_str)) <? 2)).
  { unfold skipped. rewrite Hclean.
    destruct Hm as [->| ->]; simpl; by rewrite !orb_false_r. }
  split; [done|]. split; [done|].
  intros H1 H2. apply classify_ext; rewrite ?Hclean; try done.
  rewrite Hskip. unfold skipped. by rewrite H1, H2, !orb_false_r.
Qed.

Lemma marker_prefix_invariance_witness :
  classify ascii_lower (LOWER_ONE_EIGHTH_BLOCK :: py "approved")
    = classify ascii_lower (py "approved") /\
  skipped (py "<reject>") = true /\
  skipped (LOWER_ONE_EIGHTH_BLOCK :: py "<reject>") = false.
Proof.
  destruct (marker_prefix_invariance ascii_lower LOWER_ONE_EIGHTH_BLOCK
              (py "approved") (or_introl eq_refl)) as (_ & _ & Hc).
  destruct (marker_prefix_invariance ascii_lower LOWER_ONE_EIGHTH_BLOCK
              (py "<reject>") (or_introl eq_refl)) as (_ & Hs & _).
  split; [apply Hc; reflexivity|]. split; [reflexivity|].
  rewrite Hs. reflexivity.
Defined.

(** ** The order of the tests *)

Lemma contains_trans (a b s : str) :
  contains a b = true -> contains b s = true -> contains a s = true.
Proof.
  rewrite !contains_spec. intros (l1 & r1 & ->) (l2 & r2 & ->).
  exists (l2 ++ l1), (r1 ++ r2). by rewrite <- !app_assoc.
Qed.

Lemma any_in_superstring (patterns : list str) (s s' : str) :
  any_in patterns s = true -> contains s s' = true -> any_in patterns s' = true.
Proof.
  rewrite !any_in_spec. intros (pattern & Hin & Hc) Hs.
  exists pattern. split; [done|]. by apply contains_trans with s.
Qed.

Lemma any_in_false (patterns : list str) (pattern s : str) :
  any_in patterns s = false -> pattern ∈ patterns -> contains pattern s = false.
Proof.
  intros Hnone Hin. destruct (contains pattern s) eqn:Hc; [|done].
  assert (any_in patterns s = true) by (apply any_in_spec; eauto). congruence.
Qed.

Lemma classify_rejection_pattern (lower : str -> str) (token_str : str) :
  skipped token_str = false ->
  any_in rejection_patterns (lower (clean token_str)) = true ->
  classify lower token_str = Some Rejection.
Proof.
  intros Hs Hr. unfold classify. cbv zeta. rewrite Hs, Hr.
  by destruct (member (clean token_str) rejection_exact_matches).
Qed.

(** What an approval by stem tells of the lowercased cleaned token. *)
Lemma classify_approval_by_stem (lower : str -> str) (token_str : str) :
  classify lower token_str = Some Approval ->
  member (clean token_str) approval_exact_matches = false ->
  any_in rejection_patterns (lower (clean token_str)) = false /\
  any_in pending_patterns (lower (clean token_str)) = false /\
  any_in approval_base_stems (lower (clean token_str)) = true /\
  any_in negated_indicators (lower (clean token_str)) = false.
Proof.
  unfold classify. cbv zeta. intros Hc He. rewrite He in Hc.
  destruct (skipped token_str); [done|].
  destruct (member (clean token_str) rejection_exact_matches); [done|].
  destruct (any_in rejection_patterns _); [done|].
  destruct (any_in pending_patterns _); [done|].
  destruct (any_in approval_base_stems _); [|done].
  by destruct (any_in negated_indicators _).
Qed.

(** X10. The rejection test comes first: a token that gets past the skip
    test and whose lowercased cleaned form contains a base rejection pattern,
    or a negation prefix followed by a positive stem, is classified rejection,
    whatever pending pattern, approval stem or approval word it also
    matches. *)
Theorem rejection_pattern_has_priority
    (lower : str -> str) (token_str pattern : str) :
  skipped token_str = false ->
  (pattern ∈ rejection_base_patterns \/
   exists prefix stem, prefix ∈ negation_prefixes /\ stem ∈ positive_stems /\
                       pattern = prefix ++ stem) ->
  contains pattern (lower (clean token_str)) = true ->
  classify lower token_str = Some Rejection.
Proof.
  intros Hs Hpat Hc. apply classify_rejection_pattern; [done|].
  apply any_in_spec. exists pattern. split; [|done].
  unfold rejection_patterns. apply elem_of_app.
  destruct Hpat as [Hbase|(prefix & stem & Hp & Hst & ->)]; [by left|right].
  apply list_elem_of_In, in_flat_map. exists prefix.
  split; [by apply list_elem_of_In|].
  apply in_map_iff. exists stem. split; [done|by apply list_elem_of_In].
Qed.

Lemma rejection_pattern_has_priority_witness :
  any_in approval_base_stems (ascii_lower (clean (py "nonviable"))) = true /\
  classify ascii_lower (py "nonviable") = Some Rejection.
Proof.
  split; [reflexivity|].
  apply (rejection_pattern_has_priority ascii_lower (py "nonviable")
           (py "non" ++ py "viable")).
  - reflexivity.
  - right. exists (py "non"), (py "viable").
    split; [apply member_spec; reflexivity|].
    split; [apply member_spec; reflexivity|reflexivity].
  - reflexivity.
Defined.

(** X11. Rejection by pattern passes to longer tokens: when the lowercased
    cleaned form of one token contains a rejection pattern, every token that
    gets past the skip test and whose lowercased cleaned form contains that
    of the first is classified rejection. *)
Theorem rejection_extends_to_superstrings
    (lower : str -> str) (token_str longer : str) :
  any_in rejection_patterns (lower (clean token_str)) = true ->
  skipped longer = false ->
  contains (lower (clean token_str)) (lower (clean longer)) = true ->
  classify lower longer = Some Rejection.
Proof.
  intros Hr Hs Hc. apply classify_rejection_pattern; [done|].
  by apply any_in_superstring with (lower (clean token_str)).
Qed.

Lemma rejection_extends_to_superstrings_witness :
  classify ascii_lower (py "acknowledged") = Some Rejection.
Proof.
  apply (rejection_extends_to_superstrings ascii_lower (py "know")
           (py "acknowledged")); reflexivity.
Defined.

(** X12. Three of the approval stems never decide: "confirm" is also a
    pending pattern, and "outstanding" and "sound" contain the negation
    indicators "in" and "un".  No token classified approval by a stem contains
    a stem that holds a negation indicator, a pending pattern or a rejection
    pattern, and these three are the stems that do. *)
Theorem dead_approval_stems :
  List.filter (fun stem => any_in negated_indicators stem
                           || any_in pending_patterns stem
                           || any_in rejection_patterns stem)
              approval_base_stems
    = List.map py ["confirm"; "outstanding"; "sound"]%string /\
  forall (lower : str -> str) (token_str stem : str),
    classify lower token_str = Some Approval ->
    member (clean token_str) approval_exact_matches = false ->
    any_in negated_indicators stem = true \/
    any_in pending_patterns stem = true \/
    any_in rejection_patterns stem = true ->
    contains stem (lower (clean token_str)) = false.
Proof.
  split; [vm_compute; reflexivity|].
  intros lower token_str stem Hc He Hdead.
  destruct (classify_approval_by_stem lower token_str Hc He)
    as (Hr & Hp & _ & Hn).
  destruct (contains stem (lower (clean token_str))) eqn:Hs; [|done].
  destruct Hdead as [H|[H|H]];
    pose proof (any_in_superstring _ _ _ H Hs); congruence.
Qed.

Lemma dead_approval_stems_witness :
  contains (py "sound") (ascii_lower (clean (py "approved"))) = false.
Proof.
  apply (proj2 dead_approval_stems ascii_lower (py "approved") (py "sound")).
  - reflexivity.
  - reflexivity.
  - left. reflexivity.
Defined.

(** ** Runs of the script *)

(** An archive that holds the three arrays loads, whatever else it holds. *)
Lemma lookup_cache_arrays (members : gmap string (list Z))
    (approval rejection pending : list Z) (written : option (list str)) :
  members !! "approval_ids" = Some approval ->
  members !! "rejection_ids" = Some rejection ->
  members !! "pending_ids" = Some pending ->
  lookup_cache (startup (Files (Some (Arrays members)) written)) =
  (Ok tt, State (Files (Some (Arrays members)) written)
                (Namespace (Bound approval) (Some rejection) (Some pending) None) []).
Proof.
  intros Ha Hr Hp.
  run_script. rewrite Ha. run_script. rewrite Hr. run_script. rewrite Hp.
  reflexivity.
Qed.

(** A load that does not raise found an archive with the three arrays. *)
Lemma load_cache_Ok (d : files) :
  (load_cache (startup d)).1 = Ok tt ->
  exists members approval rejection pending,
    token_cache_file d = Some (Arrays members) /\
    members !! "approval_ids" = Some approval /\
    members !! "rejection_ids" = Some rejection /\
    members !! "pending_ids" = Some pending.
Proof.
  destruct d as [[[|members|]|] written]; [done| |done..].
  run_script.
  destruct (members !! "approval_ids") as [approval|] eqn:Ha; [|done].
  run_script.
  destruct (members !! "rejection_ids") as [rejection|] eqn:Hr; [|done].
  run_script.
  destruct (members !! "pending_ids") as [pending|] eqn:Hp; [|done].
  intros _. by exists members, approval, rejection, pending.
Qed.

Lemma load_cache_arrays_Ok (members : gmap string (list Z))
    (approval rejection pending : list Z) (written : option (list str)) :
  members !! "approval_ids" = Some approval ->
  members !! "rejection_ids" = Some rejection ->
  members !! "pending_ids" = Some pending ->
  (load_cache (startup (Files (Some (Arrays members)) written))).1 = Ok tt.
Proof.
  intros Ha Hr Hp.
  run_script. rewrite Ha. run_script. rewrite Hr. run_script. rewrite Hp.
  reflexivity.
Qed.

(** The three courses of a run that has [DATA_PATH] and a tokenizer: the
    cache loads and the run goes straight to the detail file; or the run scans
    and saves, after removing a cache file that did not load; or the cache
    path is a directory and the run ends in the handler. *)
Lemma run_cases (lower : str -> str) (vocab : vocabulary) (d : files) :
  (exists members approval rejection pending,
     token_cache_file d = Some (Arrays members) /\
     members !! "approval_ids" = Some approval /\
     members !! "rejection_ids" = Some rejection /\
     members !! "pending_ids" = Some pending /\
     (load_cache (startup d)).1 = Ok tt /\
     run lower true (Some vocab) d =
     write_details
       (State d (Namespace (Bound approval) (Some rejection) (Some pending) None) []))
  \/
  ((load_cache (startup d)).1 <> Ok tt /\
   token_cache_file d <> Some Directory /\
   run lower true (Some vocab) d =
   (Ok tt, regenerated lower vocab (detailed_cache_file d)
             match token_cache_file d with
             | Some _ => [os_remove_cache]
             | None => []
             end))
  \/
  ((load_cache (startup d)).1 <> Ok tt /\
   token_cache_file d = Some Directory /\
   run lower true (Some vocab) d = (Raise OSError, startup d)).
Proof.
  destruct (load_cache (startup d)).1 as [[]|e] eqn:Hload.
  - left. destruct (load_cache_Ok d Hload)
      as (members & approval & rejection & pending & Hd & Ha & Hr & Hp).
    exists members, approval, rejection, pending. repeat (split; [done|]).
    destruct d as [c written]. simpl in Hd. subst c.
    unfold run. rewrite script_started.
    erewrite bind_Ok by (by apply lookup_cache_arrays).
    erewrite bind_Ok by (eapply generate_from_bound; reflexivity).
    by erewrite bind_Ok by (eapply final_verification_bound; reflexivity).
  - right.
    destruct (token_cache_file d) as [cache|] eqn:Hd.
    + destruct ((os_remove (startup d)).1) as [[]|e'] eqn:Hremove.
      * left. split; [done|].
        split; [intros [= ->]; by apply (os_remove_Ok d Directory Hd) in Hremove|].
        destruct (lookup_cache_failed d cache e Hd Hload Hremove)
          as (rejection & pending & Hlookup).
        unfold run. rewrite script_started.
        erewrite bind_Ok by exact Hlookup.
        apply (script_from_none lower vocab (Files None (detailed_cache_file d))).
      * right. split; [done|].
        destruct d as [c written]. simpl in Hd. subst c.
        destruct cache as [|members|]; simpl in Hremove; [done..|].
        split; reflexivity.
    + left. split; [done|]. split; [done|].
      destruct d as [c written]. simpl in Hd. subst c.
      apply run_without_cache.
Qed.

(** X13. A detail file that exists when the run starts is never written
    to, whatever the run does to the cache and however it ends. *)
Theorem existing_detail_file_is_never_changed
    (lower : str -> str) (DATA_PATH : bool) (hub : option vocabulary)
    (cache : option npz) (written : list str) :
  detailed_cache_file
    (disk (run lower DATA_PATH hub (Files cache (Some written))).2)
  = Some written.
Proof.
  destruct DATA_PATH; [|reflexivity].
  destruct hub as [vocab|]; [|reflexivity].
  destruct (run_cases lower vocab (Files cache (Some written)))
    as [(members & approval & rejection & pending & _ & _ & _ & _ & _ & Hrun)
       |[(_ & _ & Hrun)|(_ & _ & Hrun)]];
    rewrite Hrun.
  - by erewrite write_details_exists by reflexivity.
  - reflexivity.
  - reflexivity.
Qed.

(** X14. A cache that loads is used as it is: with a detail file in place,
    the run binds the three lists the archive holds, whatever the vocabulary,
    does not scan, and calls nothing that changes a file. *)
Theorem loadable_cache_is_trusted
    (lower : str -> str) (vocab : vocabulary) (members : gmap string (list Z))
    (approval rejection pending : list Z) (written : list str) :
  members !! "approval_ids" = Some approval ->
  members !! "rejection_ids" = Some rejection ->
  members !! "pending_ids" = Some pending ->
  run lower true (Some vocab) (Files (Some (Arrays members)) (Some written)) =
  (Ok tt, State (Files (Some (Arrays members)) (Some written))
                (Namespace (Bound approval) (Some rejection) (Some pending) None)
                []).
Proof.
  intros Ha Hr Hp. unfold run. rewrite script_started.
  erewrite bind_Ok by (by apply lookup_cache_arrays).
  erewrite bind_Ok by (eapply generate_from_bound; reflexivity).
  erewrite bind_Ok by (eapply final_verification_bound; reflexivity).
  by erewrite write_details_exists by reflexivity.
Qed.

Lemma loadable_cache_is_trusted_witness :
  let vocab := [(py "approved", 0)] in
  approval_ids ascii_lower vocab = [0] /\
  run ascii_lower true (Some vocab)
      (Files (Some (Arrays (saved [] [0; 7] []))) (Some [])) =
  (Ok tt, State (Files (Some (Arrays (saved [] [0; 7] []))) (Some []))
                (Namespace (Bound []) (Some [0; 7]) (Some []) None) []).
Proof.
  intros vocab. split; [by vm_compute|].
  apply (loadable_cache_is_trusted ascii_lower vocab (saved [] [0; 7] [])
           [] [0; 7] [] []);
    apply saved_lookup.
Defined.

(** X15. A run that ends normally had [DATA_PATH] bound and a tokenizer
    that loaded, did not find a directory at the cache path, and found the
    detail file in place if its cache loaded. *)
Theorem normal_end_requires
    (lower : str -> str) (DATA_PATH : bool) (hub : option vocabulary) (d : files) :
  (run lower DATA_PATH hub d).1 = Ok tt ->
  DATA_PATH = true /\ is_Some hub /\
  token_cache_file d <> Some Directory /\
  ((load_cache (startup d)).1 = Ok tt -> is_Some (detailed_cache_file d)).
Proof.
  destruct DATA_PATH; [|done]. destruct hub as [vocab|]; [|done].
  destruct (run_cases lower vocab d)
    as [(members & approval & rejection & pending & Hd & _ & _ & _ & Hload & Hrun)
       |[(Hload & Hd & Hrun)|(_ & _ & Hrun)]];
    rewrite Hrun; [| |done].
  - destruct d as [c [written|]]; simpl in Hd; subst c.
    + intros _. split; [done|]. split; [by eauto|]. split; [done|by eauto].
    + by erewrite write_details_unbound by reflexivity.
  - intros _. split; [done|]. split; [by eauto|]. split; [done|].
    intros Hok. by destruct Hload.
Qed.

Lemma normal_end_requires_witness :
  let d := Files None None in
  token_cache_file d <> Some Directory /\
  ((load_cache (startup d)).1 = Ok tt -> is_Some (detailed_cache_file d)).
Proof.
  intros d.
  destruct (normal_end_requires ascii_lower true (Some [(py "no", 0)]) d)
    as (_ & _ & Hd & Hdetail).
  - reflexivity.
  - split; [exact Hd|exact Hdetail].
Defined.

(** X16. When a run ends normally, the cache file holds an archive with
    the three arrays, these are the lists the three globals hold, and the
    detail file exists. *)
Theorem completed_run_postcondition
    (lower : str -> str) (DATA_PATH : bool) (hub : option vocabulary)
    (d : files) (s : state) :
  run lower DATA_PATH hub d = (Ok tt, s) ->
  exists (members : gmap string (list Z)) (approval rejection pending : list Z),
    token_cache_file (disk s) = Some (Arrays members) /\
    members !! "approval_ids" = Some approval /\
    members !! "rejection_ids" = Some rejection /\
    members !! "pending_ids" = Some pending /\
    approval_token_ids (names s) = Bound approval /\
    rejection_token_ids (names s) = Some rejection /\
    pending_token_ids (names s) = Some pending /\
    is_Some (detailed_cache_file (disk s)).
Proof.
  destruct DATA_PATH; [|done]. destruct hub as [vocab|]; [|done].
  destruct (run_cases lower vocab d)
    as [(members & approval & rejection & pending & Hd & Ha & Hr & Hp & _ & Hrun)
       |[(_ & _ & Hrun)|(_ & _ & Hrun)]];
    rewrite Hrun; [| |done].
  - destruct d as [c [written|]]; simpl in Hd; subst c.
    + erewrite write_details_exists by reflexivity. intros [= <-].
      exists members, approval, rejection, pending. simpl. by eauto 10.
    + by erewrite write_details_unbound by reflexivity.
  - intros [= <-].
    destruct (saved_lookup (approval_ids lower vocab) (rejection_ids lower vocab)
                (pending_ids lower vocab)) as (Ha & Hr & Hp).
    eexists _, _, _, _. unfold regenerated. simpl. by eauto 10.
Qed.

Lemma completed_run_postcondition_witness :
  exists (members : gmap string (list Z)) (approval rejection pending : list Z),
    token_cache_file (disk (regenerated ascii_lower [(py "no", 0)] None []))
      = Some (Arrays members) /\
    members !! "approval_ids" = Some approval /\
    members !! "rejection_ids" = Some rejection /\
    members !! "pending_ids" = Some pending /\
    approval_token_ids (names (regenerated ascii_lower [(py "no", 0)] None []))
      = Bound approval /\
    rejection_token_ids (names (regenerated ascii_lower [(py "no", 0)] None []))
      = Some rejection /\
    pending_token_ids (names (regenerated ascii_lower [(py "no", 0)] None []))
      = Some pending /\
    is_Some (detailed_cache_file
               (disk (regenerated ascii_lower [(py "no", 0)] None []))).
Proof.
  apply (completed_run_postcondition ascii_lower true (Some [(py "no", 0)])
           (Files None None)).
  apply run_without_cache.
Defined.

(** X17. The detail file a cached run leaves behind when it stops is there
    for good: the next run finds it, ends normally, and leaves it with its
    three headings and no token. *)
Theorem truncated_detail_file_persists
    (lower : str -> str) (vocab : vocabulary) (approval rejection pending : list Z) :
  exists (e : exception) (s1 s2 : state),
    run lower true (Some vocab)
        (Files (Some (Arrays (saved approval rejection pending))) None)
      = (Raise e, s1) /\
    run lower true (Some vocab) (disk s1) = (Ok tt, s2) /\
    detailed_cache_file (disk s2) =
      Some [py "GEMMA-7B TOKEN ANALYSIS" ++ [NEWLINE];
            replicate 50 61%N ++ [NEWLINE; NEWLINE];
            py "APPROVAL TOKENS:" ++ [NEWLINE]] /\
    disk s2 = disk s1.
Proof.
  eexists _, _, _. split; [apply run_with_saved_cache_no_details|].
  cbn [disk]. split; [apply run_with_saved_cache|]. split; reflexivity.
Qed.

(** X18. No run leaves the directory without a cache file it started
    with: a cache file that is removed is written anew before the run
    ends. *)
Theorem cache_file_survives
    (lower : str -> str) (DATA_PATH : bool) (hub : option vocabulary) (d : files) :
  is_Some (token_cache_file d) ->
  is_Some (token_cache_file (disk (run lower DATA_PATH hub d).2)).
Proof.
  intros Hcache.
  destruct DATA_PATH; [|done]. destruct hub as [vocab|]; [|done].
  destruct (run_cases lower vocab d)
    as [(members & approval & rejection & pending & Hd & _ & _ & _ & _ & Hrun)
       |[(_ & _ & Hrun)|(_ & _ & Hrun)]];
    rewrite Hrun; [|by eauto|done].
  destruct d as [c [written|]]; simpl in Hd; subst c.
  - erewrite write_details_exists by reflexivity. by eauto.
  - erewrite write_details_unbound by reflexivity. by eauto.
Qed.

Lemma cache_file_survives_witness :
  is_Some (token_cache_file
             (disk (run ascii_lower true (Some [(py "no", 0)])
                        (Files (Some Unreadable) None)).2)).
Proof.
  apply (cache_file_survives ascii_lower true (Some [(py "no", 0)])
           (Files (Some Unreadable) None)).
  by eexists.
Defined.

(** ** The order of the vocabulary *)

Lemma id_to_token_Permutation (vocab vocab' : vocabulary) :
  NoDup vocab.*2 -> vocab ≡ₚ vocab' -> id_to_token vocab = id_to_token vocab'.
Proof.
  intros Hnd Hperm.
  assert (Hnd' : NoDup vocab'.*2) by (by rewrite <- Hperm).
  apply map_eq. intros token_id.
  destruct (id_to_token vocab !! token_id) as [t|] eqn:H1.
  - apply id_to_token_elem_of in H1. rewrite Hperm in H1.
    symmetry. by apply id_to_token_lookup.
  - destruct (id_to_token vocab' !! token_id) as [t'|] eqn:H2; [|done].
    apply id_to_token_elem_of in H2. rewrite <- Hperm in H2.
    apply (id_to_token_lookup _ _ _ Hnd) in H2. congruence.
Qed.

(** X19. When no two tokens share an id, the scan does not depend on the
    order in which the vocabulary lists its entries. *)
Theorem scan_independent_of_vocab_order
    (lower : str -> str) (vocab vocab' : vocabulary) :
  NoDup vocab.*2 ->
  vocab ≡ₚ vocab' ->
  find_approval_rejection_tokens lower vocab =
  find_approval_rejection_tokens lower vocab'.
Proof.
  intros Hnd Hperm. unfold find_approval_rejection_tokens.
  by rewrite (id_to_token_Permutation vocab vocab' Hnd Hperm),
    (Permutation_length Hperm).
Qed.

Lemma scan_independent_of_vocab_order_witness :
  find_approval_rejection_tokens ascii_lower [(py "approved", 0); (py "no", 1)] =
  find_approval_rejection_tokens ascii_lower [(py "no", 1); (py "approved", 0)].
Proof.
  apply (scan_independent_of_vocab_order ascii_lower
           [(py "approved", 0); (py "no", 1)] [(py "no", 1); (py "approved", 0)]).
  - apply (bool_decide_unpack _). vm_compute. exact I.
  - apply perm_swap.
Defined.

(** ** The lines of the detail file *)

Lemma py_inj (s s' : string) : py s = py s' -> s = s'.
Proof.
  revert s'. induction s as [|a s IH]; intros [|a' s'] H; try done.
  unfold py in H. simpl in H. injection H as Ha Hs.
  f_equal; [|by apply IH].
  by rewrite <- (ascii_N_embedding a), <- (ascii_N_embedding a'), Ha.
Qed.

Lemma pretty_N_char_no_colon (x : N) : N_of_ascii (pretty_N_char x) <> COLON.
Proof. unfold pretty_N_char. by repeat case_match. Qed.

Lemma pretty_N_go_no_colon (x : N) (s : string) :
  COLON ∉ py s -> COLON ∉ py (pretty_N_go x s).
Proof.
  revert s. induction (N.lt_wf_0 x) as [x _ IH]; intros s Hs.
  destruct (decide (0 < x)%N) as [Hx|Hx].
  - rewrite pretty_N_go_step by done. apply IH.
    + by apply N.div_lt.
    + unfold py. simpl. apply not_elem_of_cons.
      split; [|done]. intros H. by apply (pretty_N_char_no_colon (x `mod` 10)).
  - replace x with 0%N by lia. by rewrite pretty_N_go_0.
Qed.

Lemma pretty_Z_no_colon (x : Z) : COLON ∉ py (pretty x).
Proof.
  assert (Hempty : COLON ∉ py "") by apply not_elem_of_nil.
  assert (HN : forall p, COLON ∉ py (pretty (N.pos p))).
  { intros p. unfold pretty, pretty_N. rewrite decide_False by done.
    by apply pretty_N_go_no_colon. }
  destruct x as [|p|p]; unfold pretty, pretty_Z.
  - unfold py. simpl. apply not_elem_of_cons. split; [done|apply not_elem_of_nil].
  - apply HN.
  - unfold py. simpl. apply not_elem_of_cons. split; [done|apply HN].
Qed.

Lemma app_cons_inj_fresh {A} (c : A) (l1 l2 r1 r2 : list A) :
  c ∉ l1 -> c ∉ l2 -> l1 ++ c :: r1 = l2 ++ c :: r2 -> l1 = l2.
Proof.
  revert l2. induction l1 as [|a l1 IH]; intros [|b l2] H1 H2 H; simpl in H.
  - done.
  - injection H as -> _. by apply not_elem_of_cons in H2 as [? _].
  - injection H as -> _. by apply not_elem_of_cons in H1 as [? _].
  - injection H as -> H.
    apply not_elem_of_cons in H1 as [_ H1]. apply not_elem_of_cons in H2 as [_ H2].
    f_equal. by apply (IH l2).
Qed.

(** X20. A line of the detail file names its token id: the lines of two
    tuples with different ids differ, whatever the token strings hold. *)
Theorem detail_line_names_its_id (e e' : entry) :
  detail_line e = detail_line e' -> entry_id e = entry_id e'.
Proof.
  destruct e as [[token_id token_str] clean_token].
  destruct e' as [[token_id' token_str'] clean_token'].
  unfold detail_line, entry_id. cbn [fst]. intros H.
  change (py ": '") with (COLON :: py " '") in H.
  rewrite <- !app_comm_cons in H.
  apply app_cons_inj_fresh in H; [|apply pretty_Z_no_colon..].
  by apply py_inj, (inj pretty) in H.
Qed.

Lemma detail_line_names_its_id_witness :
  entry_id (12, py "a' -> 'b", py "c") = entry_id (12, py "a", py "b' -> 'c").
Proof.
  apply (detail_line_names_its_id (12, py "a' -> 'b", py "c")
           (12, py "a", py "b' -> 'c")).
  vm_compute. reflexivity.
Defined.

(** ** The exact-match words *)

Lemma clean_not_skipped (token_str : str) :
  (2 <= length (clean token_str))%nat ->
  startswith (clean token_str) [LESS_THAN] = false ->
  startswith (clean token_str) [LEFT_BRACKET] = false ->
  skipped token_str = false.
Proof.
  intros Hlen H1 H2. unfold skipped.
  assert ((Z.of_nat (length (clean token_str)) <? 2) = false) as ->
    by (apply Z.ltb_ge; lia).
  destruct (startswith token_str [LESS_THAN]) eqn:Hs1.
  { apply clean_first in Hs1; [congruence|done..]. }
  destruct (startswith token_str [LEFT_BRACKET]) eqn:Hs2.
  { apply clean_first in Hs2; [congruence|done..]. }
  reflexivity.
Qed.

Lemma exact_words_pass_skip_test (token_str : str) :
  clean token_str ∈ rejection_exact_matches ++ approval_exact_matches ->
  skipped token_str = false.
Proof.
  intros Hin.
  assert (Hall : forallb (fun w => (2 <=? length w)%nat
                                   && negb (startswith w [LESS_THAN])
                                   && negb (startswith w [LEFT_BRACKET]))
                         (rejection_exact_matches ++ approval_exact_matches) = true)
    by (vm_compute; reflexivity).
  rewrite forallb_forall in Hall.
  apply list_elem_of_In, Hall in Hin.
  apply andb_true_iff in Hin as [Hin H2]. apply andb_true_iff in Hin as [H0 H1].
  apply negb_true_iff in H1, H2. apply Nat.leb_le in H0.
  by apply clean_not_skipped.
Qed.

(** X21. A token whose cleaned form is one of the seven rejection words is
    classified rejection, whatever [lower] does; a token whose cleaned form is
    one of the eight approval words is classified approval.  Neither is
    stopped by the skip test, whatever markers and white space surround the
    word in the raw token. *)
Theorem exact_match_words_decide (lower : str -> str) (token_str : str) :
  (clean token_str ∈ rejection_exact_matches ->
   skipped token_str = false /\ classify lower token_str = Some Rejection) /\
  (lowers_ascii lower ->
   clean token_str ∈ approval_exact_matches ->
   skipped token_str = false /\ classify lower token_str = Some Approval).
Proof.
  split.
  - intros Hin.
    assert (Hs : skipped token_str = false)
      by (apply exact_words_pass_skip_test, elem_of_app; by left).
    split; [done|]. apply member_spec in Hin.
    unfold classify. cbv zeta. by rewrite Hs, Hin.
  - intros Hlower Hin.
    assert (Hs : skipped token_str = false)
      by (apply exact_words_pass_skip_test, elem_of_app; by right).
    split; [done|].
    assert (Hall : forallb (fun w => is_ascii w
                                     && negb (member w rejection_exact_matches)
                                     && negb (any_in rejection_patterns (ascii_lower w))
                                     && negb (any_in pending_patterns (ascii_lower w)))
                           approval_exact_matches = true)
      by (vm_compute; reflexivity).
    rewrite forallb_forall in Hall.
    pose proof Hin as Hw. apply list_elem_of_In, Hall in Hw.
    apply andb_true_iff in Hw as [Hw Hp]. apply andb_true_iff in Hw as [Hw Hr].
    apply andb_true_iff in Hw as [Ha He].
    apply negb_true_iff in Hp, Hr, He. apply member_spec in Hin.
    unfold classify. cbv zeta. rewrite (Hlower _ Ha).
    by rewrite Hs, He, Hr, Hp, Hin.
Qed.

Lemma exact_match_words_decide_witness :
  classify ascii_lower (LOWER_ONE_EIGHTH_BLOCK :: py " void ") = Some Rejection /\
  classify ascii_lower (LOWER_ONE_EIGHTH_BLOCK :: py "fine") = Some Approval.
Proof.
  destruct (exact_match_words_decide ascii_lower
              (LOWER_ONE_EIGHTH_BLOCK :: py " void ")) as [Hr _].
  destruct (exact_match_words_decide ascii_lower
              (LOWER_ONE_EIGHTH_BLOCK :: py "fine")) as [_ Ha].
  split.
  - apply Hr. apply member_spec. reflexivity.
  - apply Ha; [by intros s _|]. apply member_spec. reflexivity.
Defined.
